(** * The reservation data source of terraform-provider-azureipam

    A shallow embedding of [internal/provider/reservation_data_source.go]:
    the [Read] method (decode the configuration, search the candidate
    blocks in order through the IPAM client, project the reservation into
    the state model) and the [Configure] method, together with the small
    part of the plugin framework and of the Go runtime that the two
    methods touch.  Go packages become modules, structs become records,
    a nilable pointer or map becomes an [option], and the backend, which
    is reached over the network, is a function on an explicit world [W]. *)

From Stdlib Require Import String Ascii List Bool Arith Lia.
From stdpp Require Import base decidable option list strings gmap.

Local Open Scope string_scope.
Local Open Scope list_scope.

(** ** Package [strings] *)

(** [strings.HasPrefix(s, prefix)]. *)
Fixpoint HasPrefix (s prefix : string) {struct prefix} : bool :=
  match prefix with
  | EmptyString => true
  | String p prefix' =>
      match s with
      | EmptyString => false
      | String c s' => if Ascii.eqb c p then HasPrefix s' prefix' else false
      end
  end.

(** [strings.Contains(s, substr)]: [substr] occurs somewhere within [s]. *)
Fixpoint Contains (s substr : string) : bool :=
  HasPrefix s substr ||
  match s with
  | EmptyString => false
  | String _ s' => Contains s' substr
  end.

(** ** The builtin [error] interface *)

Module builtin.

(** A non-nil [error] value: the dynamic type behind the interface and
    the text its [Error()] method returns.  A nil [error] is [None]. *)
Record error : Type := mkError {
  dynamicType : string;
  Error : string
}.

End builtin.

(** ** Package [diag] of the plugin framework *)

Module diag.

Inductive Severity : Type := SeverityError | SeverityWarning.

(** A diagnostic: severity, summary and detail, and the attribute path
    of a diagnostic that has one ([diag.DiagnosticWithPath]), as text. *)
Record Diagnostic : Type := mkDiagnostic {
  severity : Severity;
  Summary : string;
  Detail : string;
  Path : option string
}.

#[export] Instance Severity_eq_dec : EqDecision Severity.
Proof. solve_decision. Defined.

#[export] Instance Diagnostic_eq_dec : EqDecision Diagnostic.
Proof. solve_decision. Defined.

Definition Diagnostics : Type := list Diagnostic.

Definition NewErrorDiagnostic (summary detail : string) : Diagnostic :=
  mkDiagnostic SeverityError summary detail None.

(** [Diagnostics.Contains]. *)
Definition ContainsDiag (diags : Diagnostics) (d : Diagnostic) : bool :=
  bool_decide (d ∈ diags).

(** [Diagnostics.Append]: adds the diagnostics that are not yet part of
    the collection, in order. *)
Fixpoint Append (diags : Diagnostics) (new : list Diagnostic) : Diagnostics :=
  match new with
  | [] => diags
  | d :: rest =>
      if ContainsDiag diags d then Append diags rest
      else Append (diags ++ [d]) rest
  end.

(** [Diagnostics.AddError]. *)
Definition AddError (diags : Diagnostics) (summary detail : string) : Diagnostics :=
  Append diags [NewErrorDiagnostic summary detail].

Definition isError (d : Diagnostic) : bool :=
  match severity d with SeverityError => true | SeverityWarning => false end.

(** [Diagnostics.HasError]. *)
Definition HasError (diags : Diagnostics) : bool := existsb isError diags.

End diag.

(** ** Packages [types] and [timetypes] of the plugin framework

    A framework value is null, unknown or known.  The zero value of the
    Go struct of a string, a map or a timestamp is written as its null
    value; the zero value of a list, on which [ElementsAs] behaves
    otherwise than on a null list, is a case of its own. *)

Module types.

Inductive String : Type :=
| StringNull
| StringUnknown
| StringValue (s : string).

(** [String.ValueString]: the known text, the empty string otherwise. *)
Definition ValueString (v : String) : string :=
  match v with
  | StringValue s => s
  | StringNull | StringUnknown => ""
  end.

(** A list value.  [ListZero] is the zero value of the Go struct, which
    has no element type; [ListNull] is the null list of a schema, which
    has one. *)
Inductive List : Type :=
| ListZero
| ListNull
| ListUnknown
| ListValue (elements : list String).

Inductive Map : Type :=
| MapNull
| MapUnknown
| MapValue (elements : gmap string String).

(** The diagnostic the framework's reflection reports for a value that
    does not fit the Go target: an error with the summary "Value
    Conversion Error".  Its attribute path and the text of its detail
    are the framework's own and are taken as given. *)
Definition ValueConversionError (report : option string * string)
    : diag.Diagnostic :=
  diag.mkDiagnostic diag.SeverityError "Value Conversion Error"
    (snd report) (fst report).

(** A list element read into a Go [string]: neither null nor unknown
    fits. *)
Definition elementAsString (v : String) : option string :=
  match v with
  | StringValue s => Some s
  | StringNull | StringUnknown => None
  end.

(** [List.ElementsAs(ctx, &target, false)] for a target of type
    [[]string]: an unknown list or a null or unknown element is a
    conversion error and leaves the target alone, a null list gives the
    nil slice.  On the zero value of [List], which has no element type,
    the call panics: there is no result ([None]).  [report] gives, for a
    list that does not convert, the path and the detail of the
    diagnostic the framework writes. *)
Definition ElementsAs (report : List -> option string * string) (l : List)
    : option (list string * diag.Diagnostics) :=
  match l with
  | ListZero => None
  | ListNull => Some ([], [])
  | ListUnknown => Some ([], [ValueConversionError (report l)])
  | ListValue elements =>
      match mapM elementAsString elements with
      | Some target => Some (target, [])
      | None => Some ([], [ValueConversionError (report l)])
      end
  end.

(** [types.MapValueFrom(ctx, types.StringType, m)] for [m] of type
    [map[string]string]: the nil map becomes the null value, any other
    map the known value with each string wrapped. *)
Definition MapValueFrom (m : option (gmap string string)) : Map * diag.Diagnostics :=
  match m with
  | None => (MapNull, [])
  | Some elements => (MapValue (StringValue <$> elements), [])
  end.

(** Reading a map value back as a Go [map[string]string]. *)
Definition mapAsStrings (v : Map) : option (gmap string string) :=
  match v with
  | MapValue elements => Some (ValueString <$> elements)
  | MapNull | MapUnknown => None
  end.

End types.

Module timetypes.

Inductive RFC3339 : Type :=
| RFC3339Null
| RFC3339Unknown
| RFC3339Value (s : string).

End timetypes.

(** ** Package [tfsdk]: configuration and state of one request *)

Module tfsdk.

(** The configuration sent with a request, seen through [Config.Get]
    into a model of type [M]: either it decodes into the model, or the
    reflection reports diagnostics and leaves the target untouched. *)
Inductive Config (M : Type) : Type :=
| Decodes (model : M)
| Mismatch (diags : diag.Diagnostics).
Arguments Decodes {M} model.
Arguments Mismatch {M} diags.

(** [Config.Get(ctx, &target)], with [target] holding [zero] before the
    call. *)
Definition Get {M : Type} (zero : M) (c : Config M) : M * diag.Diagnostics :=
  match c with
  | Decodes model => (model, [])
  | Mismatch diags => (zero, diags)
  end.

(** The state of a response: empty until a model is written to it. *)
Definition State (M : Type) : Type := option M.

(** [State.Set(ctx, &val)] for a model whose fields mirror the schema:
    the whole state is replaced by the model. *)
Definition Set_ {M : Type} (s : State M) (val : M) : State M * diag.Diagnostics :=
  (Some val, []).

End tfsdk.

(** ** Package [ipamclient]: the IPAM backend *)

Module ipamclient.

(** Modelled from the spec: the [Reservation] struct of package
    [ipamclient], which is not part of the sources at hand.  The spec
    lists its attributes: id, cidr, description, createdOn, createdBy,
    settledOn, settledBy, status and tags, the strings as strings, the
    two times as timestamps of a type [T] that is left open, and the
    tags as a mapping from string to string (a Go map, nil when absent). *)
Record Reservation (T : Type) : Type := mkReservation {
  Id : string;
  Cidr : string;
  Description : string;
  CreatedOn : T;
  CreatedBy : string;
  SettledOn : T;
  SettledBy : string;
  Status : string;
  Tags : option (gmap string string)
}.
Arguments mkReservation {T}.
Arguments Id {T}.
Arguments Cidr {T}.
Arguments Description {T}.
Arguments CreatedOn {T}.
Arguments CreatedBy {T}.
Arguments SettledOn {T}.
Arguments SettledBy {T}.
Arguments Status {T}.
Arguments Tags {T}.

(** The answer of [GetReservation]: a pointer to a [Reservation] and an
    [error], either of which may be nil. *)
Definition Answer (T : Type) : Type :=
  (option (Reservation T) * option builtin.error)%type.

(** A [Client] is used through its method
    [GetReservation(space, block, id)] alone.  The call goes to the
    backend, so it reads and may change a world [W] that the provider
    does not see. *)
Record Client (W T : Type) : Type := mkClient {
  GetReservation : string -> string -> string -> W -> Answer T * W
}.
Arguments mkClient {W T}.
Arguments GetReservation {W T}.

End ipamclient.

(** ** Package [datasource] of the plugin framework *)

Module datasource.

Record ReadRequest (M : Type) : Type := mkReadRequest {
  Config : tfsdk.Config M
}.
Arguments mkReadRequest {M}.
Arguments Config {M}.

Record ReadResponse (M : Type) : Type := mkReadResponse {
  State : tfsdk.State M;
  Diagnostics : diag.Diagnostics
}.
Arguments mkReadResponse {M}.
Arguments State {M}.
Arguments Diagnostics {M}.

(** The [ProviderData any] of a configure request: the nil interface, a
    pointer to a client (the pointer itself may be nil), or a value of
    another dynamic type, of which only the name that [%T] prints is
    kept. *)
Inductive any (W T : Type) : Type :=
| nil
| ClientPointer (p : option (ipamclient.Client W T))
| Other (typeName : string).
Arguments nil {W T}.
Arguments ClientPointer {W T} p.
Arguments Other {W T} typeName.

Record ConfigureRequest (W T : Type) : Type := mkConfigureRequest {
  ProviderData : any W T
}.
Arguments mkConfigureRequest {W T}.
Arguments ProviderData {W T}.

(** The one field of a configure response, [Diagnostics]. *)
Record ConfigureResponse : Type := mkConfigureResponse {
  ConfigureDiagnostics : diag.Diagnostics
}.

End datasource.

(** ** Package [provider], file [reservation_resource.go] *)

Module resource.

(** Modelled from the spec: the struct [reservationResourceModel], which
    [Read] borrows as the target of [flattenReservation] and which is
    declared in a file that is not part of the sources at hand.  Only
    the eight fields that [Read] copies out of it are kept; their types
    are those of the fields of the data source model they are assigned
    to. *)
Record reservationResourceModel : Type := mkResourceModel {
  Id : types.String;
  Cidr : types.String;
  Description : types.String;
  CreatedOn : timetypes.RFC3339;
  CreatedBy : types.String;
  SettledOn : timetypes.RFC3339;
  SettledBy : types.String;
  Status : types.String
}.

(** [var model reservationResourceModel]: the zero value. *)
Definition zero : reservationResourceModel :=
  mkResourceModel types.StringNull types.StringNull types.StringNull
    timetypes.RFC3339Null types.StringNull timetypes.RFC3339Null
    types.StringNull types.StringNull.

(** Modelled from the spec: the helper [flattenReservation], which is
    missing with its file.  The spec has the backend reservation
    projected field by field with no transformation beyond type
    adaptation: a string is passed through as a known string value and a
    timestamp is parsed.  How a timestamp of the backend becomes an
    [RFC3339] value is left to [parseTimestamp]. *)
Definition flattenReservation {T : Type}
    (parseTimestamp : T -> timetypes.RFC3339)
    (reservation : ipamclient.Reservation T)
    (model : reservationResourceModel) : reservationResourceModel :=
  {| Id := types.StringValue (ipamclient.Id reservation);
     Cidr := types.StringValue (ipamclient.Cidr reservation);
     Description := types.StringValue (ipamclient.Description reservation);
     CreatedOn := parseTimestamp (ipamclient.CreatedOn reservation);
     CreatedBy := types.StringValue (ipamclient.CreatedBy reservation);
     SettledOn := parseTimestamp (ipamclient.SettledOn reservation);
     SettledBy := types.StringValue (ipamclient.SettledBy reservation);
     Status := types.StringValue (ipamclient.Status reservation) |}.

End resource.

(** ** Package [provider], file [reservation_data_source.go] *)

(** [reservationDataSourceModel]: the schema data of the data source. *)
Record reservationDataSourceModel : Type := mkModel {
  Space : types.String;
  Blocks : types.List;
  Id : types.String;
  Cidr : types.String;
  Description : types.String;
  CreatedOn : timetypes.RFC3339;
  CreatedBy : types.String;
  SettledOn : timetypes.RFC3339;
  SettledBy : types.String;
  Status : types.String;
  Tags : types.Map
}.

(** [var state reservationDataSourceModel]: the zero value. *)
Definition zeroModel : reservationDataSourceModel :=
  mkModel types.StringNull types.ListZero types.StringNull types.StringNull
    types.StringNull timetypes.RFC3339Null types.StringNull
    timetypes.RFC3339Null types.StringNull types.StringNull types.MapNull.

(** [reservationDataSource]: the data source, holding a pointer to the
    client that is nil until [Configure] has stored one. *)
Record reservationDataSource (W T : Type) : Type := mkDataSource {
  client : option (ipamclient.Client W T)
}.
Arguments mkDataSource {W T}.
Arguments client {W T}.

(** The two ways control leaves the [for] loop of [Read]: by the
    [return] after a fatal error, with the block and the error at hand,
    or by falling out of the loop, at [break] or at the end of the
    range, with the locals [reservation] and [lastErr]. *)
Inductive LoopExit (T : Type) : Type :=
| Returned (block : string) (err : builtin.error)
| Fell (reservation : option (ipamclient.Reservation T))
       (lastErr : option builtin.error).
Arguments Returned {T} block err.
Arguments Fell {T} reservation lastErr.

(** The message of the diagnostic for a fatal backend error:
    [fmt.Sprintf("space=%s block=%s error=%s", space, block, err.Error())]. *)
Definition readErrorDetail (space block message : string) : string :=
  "space=" +:+ space +:+ " block=" +:+ block +:+ " error=" +:+ message.

(** The message of the diagnostic for a reservation found in no block:
    [fmt.Sprintf("Reservation with id '%s' was not found in provided blocks.", id)]. *)
Definition notFoundDetail (id : string) : string :=
  "Reservation with id '" +:+ id +:+ "' was not found in provided blocks.".

(** The message of the diagnostic of [Configure]:
    [fmt.Sprintf("Expected *azureipam.Client, got: %T. Please report this issue to the provider developers.", req.ProviderData)]. *)
Definition configureDetail (typeName : string) : string :=
  "Expected *azureipam.Client, got: " +:+ typeName +:+
  ". Please report this issue to the provider developers.".

Section Provider.

Context {W T : Type}.

(** How [flattenReservation] turns a timestamp of the backend into an
    [RFC3339] value. *)
Variable parseTimestamp : T -> timetypes.RFC3339.

(** The path and the detail of the diagnostic that the framework writes
    for a list of blocks that does not convert. *)
Variable conversionReport : types.List -> option string * string.

(** The [for _, block := range blocks] loop of [Read], as a function of
    the blocks still to visit, the local [lastErr] and the world.  Each
    round calls [d.client.GetReservation(space, block, id)]; calling
    through a nil [d.client] is outside the model ([None]). *)
Fixpoint lookup (client : option (ipamclient.Client W T)) (space id : string)
    (blocks : list string) (lastErr : option builtin.error) (w : W)
    : option (LoopExit T * W) :=
  match blocks with
  | [] => Some (Fell None lastErr, w)
  | block :: rest =>
      c ← client;
      let '((r, err), w') := ipamclient.GetReservation c space block id w in
      match err with
      | Some e =>
          (* if not found in this block, continue searching the next block *)
          if Contains (builtin.Error e) "Reservation not found"
          then lookup client space id rest (Some e) w'
          else Some (Returned block e, w')
      | None =>
          (* reservation = r; break *)
          Some (Fell r lastErr, w')
      end
  end.

(** "Map response body to state model": the assignments of [Read] after
    a reservation has been found.  [Space] and [Blocks] are not assigned. *)
Definition mapResponse (state : reservationDataSourceModel) (reservation : ipamclient.Reservation T)
    : reservationDataSourceModel :=
  let model := resource.flattenReservation parseTimestamp reservation resource.zero in
  {| Space := Space state;
     Blocks := Blocks state;
     Id := resource.Id model;
     Cidr := resource.Cidr model;
     Description := resource.Description model;
     CreatedOn := resource.CreatedOn model;
     CreatedBy := resource.CreatedBy model;
     SettledOn := resource.SettledOn model;
     SettledBy := resource.SettledBy model;
     Status := resource.Status model;
     Tags := fst (types.MapValueFrom (ipamclient.Tags reservation)) |}.

(** [Read]: the response is passed in and handed back, next to the world
    the backend calls have left.  There is no result ([None]) where
    [ElementsAs] panics, and where the loop would call through a nil
    client, which is outside the model. *)
Definition Read (d : reservationDataSource W T)
    (req : datasource.ReadRequest reservationDataSourceModel) (resp : datasource.ReadResponse reservationDataSourceModel)
    (w : W) : option (datasource.ReadResponse reservationDataSourceModel * W) :=
  (* Read Terraform configuration state into the model *)
  let '(state, getDiags) := tfsdk.Get zeroModel (datasource.Config req) in
  let resp :=
    datasource.mkReadResponse (datasource.State resp)
      (diag.Append (datasource.Diagnostics resp) getDiags) in
  (* Convert blocks list to []string *)
  '(blocks, diags) ← types.ElementsAs conversionReport (Blocks state);
  if diag.HasError diags then
    Some (datasource.mkReadResponse (datasource.State resp)
            (diag.Append (datasource.Diagnostics resp) diags), w)
  else if Nat.eqb (length blocks) 0 then
    Some (datasource.mkReadResponse (datasource.State resp)
            (diag.AddError (datasource.Diagnostics resp)
               "Invalid Configuration"
               "At least one block must be specified in 'blocks'."), w)
  else
    '(exit, w') ← lookup (client d) (types.ValueString (Space state))
                    (types.ValueString (Id state)) blocks None w;
    match exit with
    | Returned block err =>
        Some (datasource.mkReadResponse (datasource.State resp)
                (diag.AddError (datasource.Diagnostics resp)
                   "Unable to Read AzureIpam Reservation"
                   (readErrorDetail (types.ValueString (Space state)) block
                      (builtin.Error err))), w')
    | Fell None lastErr =>
        (* no matches across provided blocks; lastErr is dropped *)
        Some (datasource.mkReadResponse (datasource.State resp)
                (diag.AddError (datasource.Diagnostics resp)
                   "Reservation Not Found"
                   (notFoundDetail (types.ValueString (Id state)))), w')
    | Fell (Some reservation) _ =>
        (* Set state *)
        let '(st, diags) :=
          tfsdk.Set_ (datasource.State resp) (mapResponse state reservation) in
        Some (datasource.mkReadResponse st
                (diag.Append (datasource.Diagnostics resp) diags), w')
    end.

(** [Configure]: the data source and the response after the call. *)
Definition Configure (d : reservationDataSource W T)
    (req : datasource.ConfigureRequest W T) (resp : datasource.ConfigureResponse)
    : reservationDataSource W T * datasource.ConfigureResponse :=
  match datasource.ProviderData req with
  | datasource.nil => (d, resp)
  | datasource.ClientPointer p => (mkDataSource p, resp)
  | datasource.Other typeName =>
      (d, datasource.mkConfigureResponse
            (diag.AddError (datasource.ConfigureDiagnostics resp)
               "Unexpected Data Source Configure Type"
               (configureDetail typeName)))
  end.

End Provider.

(** ** Observing the backend

    The properties below speak of the backend through two functions:
    [answers] runs the backend over a list of blocks, in order, and
    collects what it answers; [recording] wraps a client so that every
    call it receives is appended to a log kept next to the world. *)

(** One call of [GetReservation(space, block, id)]. *)
Record Call : Type := mkCall {
  callSpace : string;
  callBlock : string;
  callId : string
}.

#[export] Instance Call_eq_dec : EqDecision Call.
Proof. solve_decision. Defined.

(** The calls of one lookup that visits [blocks]. *)
Definition callsFor (space id : string) (blocks : list string) : list Call :=
  (fun block => mkCall space block id) <$> blocks.

(** The client [c] with a log of the calls made to it. *)
Definition recording {W T : Type} (c : ipamclient.Client W T)
    : ipamclient.Client (W * list Call) T :=
  ipamclient.mkClient
    (fun space block id '(w, log) =>
       let '(a, w') := ipamclient.GetReservation c space block id w in
       (a, (w', log ++ [mkCall space block id]))).

(** The answers of the backend to one call per block, in order. *)
Fixpoint answers {W T : Type} (c : ipamclient.Client W T) (space id : string)
    (blocks : list string) (w : W) : list (ipamclient.Answer T) * W :=
  match blocks with
  | [] => ([], w)
  | block :: rest =>
      let '(a, w') := ipamclient.GetReservation c space block id w in
      let '(ans, w'') := answers c space id rest w' in
      (a :: ans, w'')
  end.

(** An answer that is an error saying "Reservation not found". *)
Definition notFound {T : Type} (a : ipamclient.Answer T) : bool :=
  match snd a with
  | Some e => Contains (builtin.Error e) "Reservation not found"
  | None => false
  end.

(** The value of [lastErr] after a run of not-found answers. *)
Definition lastErrAfter {T : Type} (ans : list (ipamclient.Answer T))
    (lastErr : option builtin.error) : option builtin.error :=
  match last ans with
  | Some a => snd a
  | None => lastErr
  end.

(** [sub] occurs within [s]: some text before it and some after it. *)
Definition occursIn (sub s : string) : Prop :=
  exists before after : string, s = before +:+ sub +:+ after.

(** ** A sample backend

    A space with three blocks: the reservation lives in ["b2"], block
    ["b3"] cannot be reached, and every other block answers that it has
    no such reservation.  The world counts the requests served. *)

Module sample.

Definition parseTimestamp (s : string) : timetypes.RFC3339 :=
  timetypes.RFC3339Value s.

(** A stand-in for the text the framework writes for a list of blocks
    that does not convert. *)
Definition conversionReport (l : types.List) : option string * string :=
  (None, "the value does not fit the target").

Definition reservation : ipamclient.Reservation string :=
  ipamclient.mkReservation "X" "10.1.2.0/28" "core network"
    "2024-05-01T10:00:00Z" "ops@example.org" "2024-05-02T08:30:00Z"
    "net@example.org" "wait" (Some {[ "X-IPAM-RES-ID" := "X" ]}).

Definition missing : builtin.error :=
  builtin.mkError "*errors.errorString"
    "status: 404, body: Reservation not found in block".

Definition unreachable : builtin.error :=
  builtin.mkError "*url.Error" "dial tcp 10.0.0.1:443: i/o timeout".

Definition backend : ipamclient.Client nat string :=
  ipamclient.mkClient
    (fun space block id served =>
       if String.eqb block "b2" then ((Some reservation, None), S served)
       else if String.eqb block "b3" then ((None, Some unreachable), S served)
       else ((None, Some missing), S served)).

Definition config (blocks : list string) : reservationDataSourceModel :=
  mkModel (types.StringValue "core") (types.ListValue (types.StringValue <$> blocks))
    (types.StringValue "X") types.StringNull types.StringNull
    timetypes.RFC3339Null types.StringNull timetypes.RFC3339Null
    types.StringNull types.StringNull types.MapNull.

Definition request (blocks : list string)
    : datasource.ReadRequest reservationDataSourceModel :=
  datasource.mkReadRequest (tfsdk.Decodes (config blocks)).

Definition response : datasource.ReadResponse reservationDataSourceModel :=
  datasource.mkReadResponse None [].

Definition source : reservationDataSource nat string :=
  mkDataSource (Some backend).

(** The response to a request for blocks ["b1"] and ["b2"], in which the
    reservation is found. *)
Definition found : datasource.ReadResponse reservationDataSourceModel :=
  datasource.mkReadResponse
    (Some (mapResponse parseTimestamp (config ["b1"; "b2"]) reservation)) [].

End sample.

(** ** Package [schema] of the plugin framework *)

Module schema.

(** The three kinds of attribute the data source declares:
    [schema.StringAttribute], [schema.ListAttribute] and
    [schema.MapAttribute]. *)
Inductive Kind : Type := StringAttribute | ListAttribute | MapAttribute.

(** [types.StringType], the one element type in use. *)
Inductive ElementType : Type := StringType.

(** [timetypes.RFC3339Type{}], the one custom type in use. *)
Inductive CustomType : Type := RFC3339Type.

#[global] Instance ElementType_eq_dec : EqDecision ElementType.
Proof. solve_decision. Defined.

(** An attribute with the fields the data source sets; a field that is
    left out of the Go literal has its zero value. *)
Record Attribute : Type := mkAttribute {
  kind : Kind;
  customType : option CustomType;
  Description : string;
  Required : bool;
  Computed : bool;
  elementType : option ElementType
}.

Record Schema : Type := mkSchema {
  SchemaDescription : string;
  Attributes : gmap string Attribute
}.

(** The Go type a value of an attribute has in a model struct:
    [types.String], [types.List], [types.Map] or [timetypes.RFC3339]. *)
Inductive ValueType : Type := String | List | Map | RFC3339.

#[global] Instance ValueType_eq_dec : EqDecision ValueType.
Proof. solve_decision. Defined.

(** The value type of an attribute: that of its custom type when it has
    one, that of its kind otherwise. *)
Definition valueType (a : Attribute) : ValueType :=
  match kind a, customType a with
  | StringAttribute, Some RFC3339Type => RFC3339
  | StringAttribute, None => String
  | ListAttribute, _ => List
  | MapAttribute, _ => Map
  end.

End schema.

(** ** [Metadata], [Schema] and [NewReservationDataSource] *)

(** [datasource.MetadataRequest] and [datasource.MetadataResponse]. *)
Record MetadataRequest : Type := mkMetadataRequest {
  ProviderTypeName : string
}.

Record MetadataResponse : Type := mkMetadataResponse {
  TypeName : string
}.

(** [datasource.SchemaResponse], with the one field [Schema] sets. *)
Record SchemaResponse : Type := mkSchemaResponse {
  ResponseSchema : schema.Schema
}.

(** [NewReservationDataSource]: a data source with no client yet. *)
Definition NewReservationDataSource {W T : Type} : reservationDataSource W T :=
  mkDataSource None.

(** [Metadata]: the data source type name. *)
Definition Metadata {W T : Type} (d : reservationDataSource W T)
    (req : MetadataRequest) (resp : MetadataResponse) : MetadataResponse :=
  mkMetadataResponse (ProviderTypeName req +:+ "_reservation").

(** [Schema]: the schema of the data source. *)
Definition Schema {W T : Type} (d : reservationDataSource W T)
    (resp : SchemaResponse) : SchemaResponse :=
  mkSchemaResponse
    (schema.mkSchema
       "The reservation data source allows you to retrieve a specific reservation by id in the specified space and blocks."
       (list_to_map [
          ("space",
           schema.mkAttribute schema.StringAttribute None
             "Name of the space where the reservation is allocated."
             true false None);
          ("blocks",
           schema.mkAttribute schema.ListAttribute None
             "List of block names where the reservation could be allocated (within the specified space). The first match will be returned."
             true false (Some schema.StringType));
          ("id",
           schema.mkAttribute schema.StringAttribute None
             "The unique identifier of the reservation."
             true false None);
          ("cidr",
           schema.mkAttribute schema.StringAttribute None
             "The assigned and reserved range, in cidr notation."
             false true None);
          ("description",
           schema.mkAttribute schema.StringAttribute None
             "Description text that describe the reservation."
             false true None);
          ("created_on",
           schema.mkAttribute schema.StringAttribute (Some schema.RFC3339Type)
             "The date and time that the reservacion was created."
             false true None);
          ("created_by",
           schema.mkAttribute schema.StringAttribute None
             "Email or identification of user that created the reservation."
             false true None);
          ("settled_on",
           schema.mkAttribute schema.StringAttribute (Some schema.RFC3339Type)
             "The date and time when the reservation was settled."
             false true None);
          ("settled_by",
           schema.mkAttribute schema.StringAttribute None
             "Email or identification of user that have settled the reservation."
             false true None);
          ("status",
           schema.mkAttribute schema.StringAttribute None
             "Status of the reservation, a 'wait' status indicates that is waiting for the related vnet creation."
             false true None);
          ("tags",
           schema.mkAttribute schema.MapAttribute None
             "Auto-generated tags for the reservation. Particular relevance the 'X-IPAM-RES-ID' tag, since it must be included in the vnet creation in order that the IPAM solution automatically considers the reservation as completed."
             false true (Some schema.StringType))
        ])).

(** The [tfsdk] tags of the fields of [reservationDataSourceModel], in
    the order of the struct, each with the Go type of its field. *)
Definition modelFields : list (string * schema.ValueType) :=
  [ ("space", schema.String); ("blocks", schema.List); ("id", schema.String);
    ("cidr", schema.String); ("description", schema.String);
    ("created_on", schema.RFC3339); ("created_by", schema.String);
    ("settled_on", schema.RFC3339); ("settled_by", schema.String);
    ("status", schema.String); ("tags", schema.Map) ].

(** ** A second sample backend

    Block ["b0"] answers with neither a reservation nor an error; the
    other blocks are those of the first sample. *)

Module sample2.

Definition backend : ipamclient.Client nat string :=
  ipamclient.mkClient
    (fun space block id served =>
       if String.eqb block "b0" then ((None, None), S served)
       else ipamclient.GetReservation sample.backend space block id served).

(** A configuration whose list of blocks is not known yet. *)
Definition unknownBlocks : reservationDataSourceModel :=
  mkModel (types.StringValue "core") types.ListUnknown
    (types.StringValue "X") types.StringNull types.StringNull
    timetypes.RFC3339Null types.StringNull timetypes.RFC3339Null
    types.StringNull types.StringNull types.MapNull.

(** A not-found error with another text than [sample.missing]. *)
Definition gone : builtin.error :=
  builtin.mkError "*errors.errorString" "Reservation not found".

(** A backend in which no block has the reservation. *)
Definition terse : ipamclient.Client nat string :=
  ipamclient.mkClient
    (fun space block id served => ((None, Some gone), S served)).

(** A response that already carries a warning. *)
Definition warned : datasource.ReadResponse reservationDataSourceModel :=
  datasource.mkReadResponse None
    [diag.mkDiagnostic diag.SeverityWarning "Deprecated" "Use another source."
       None].

End sample2.

(** * Properties *)

(** ** Strings *)

Lemma append_empty (s : string) : "" +:+ s = s.
Proof. reflexivity. Qed.

Lemma append_String (c : ascii) (s t : string) :
  String c s +:+ t = String c (s +:+ t).
Proof. reflexivity. Qed.

Lemma append_empty_r (s : string) : s +:+ "" = s.
Proof.
  induction s as [|c s IH]; [reflexivity|].
  rewrite append_String, IH. reflexivity.
Qed.

Lemma append_assoc (s t u : string) : (s +:+ t) +:+ u = s +:+ t +:+ u.
Proof.
  induction s as [|c s IH]; [reflexivity|].
  rewrite !append_String, IH. reflexivity.
Qed.

Lemma occursIn_middle (before sub after : string) :
  occursIn sub (before +:+ sub +:+ after).
Proof. exists before, after. reflexivity. Qed.

Lemma occursIn_end (before sub : string) : occursIn sub (before +:+ sub).
Proof. exists before, "". rewrite append_empty_r. reflexivity. Qed.

Lemma HasPrefix_spec (prefix s : string) :
  HasPrefix s prefix = true <-> exists rest : string, s = prefix +:+ rest.
Proof.
  revert s. induction prefix as [|p prefix IH]; intros s; simpl.
  - split; [intros _; exists s; reflexivity | reflexivity].
  - destruct s as [|c s].
    + split; [discriminate | intros [rest H]; discriminate H].
    + destruct (Ascii.eqb c p) eqn:E.
      * apply Ascii.eqb_eq in E. subst c. rewrite IH.
        split; intros [rest H]; exists rest; rewrite append_String in *;
          congruence.
      * apply Ascii.eqb_neq in E.
        split; [discriminate|].
        intros [rest H]. rewrite append_String in H. congruence.
Qed.

Lemma Contains_spec (sub s : string) :
  Contains s sub = true <-> occursIn sub s.
Proof.
  unfold occursIn. induction s as [|c s IH]; simpl.
  - rewrite orb_false_r, HasPrefix_spec. split.
    + intros [rest H]. exists "", rest. exact H.
    + intros [[|b before] [after H]]; [exists after; exact H | discriminate H].
  - rewrite orb_true_iff, HasPrefix_spec, IH. split.
    + intros [[rest H] | (before & after & H)].
      * exists "", rest. exact H.
      * exists (String c before), after. rewrite append_String. congruence.
    + intros ([|b before] & after & H).
      * left. exists after. exact H.
      * right. exists before, after. rewrite append_String in H. congruence.
Qed.

Lemma Contains_false (sub s : string) :
  Contains s sub = false <-> ~ occursIn sub s.
Proof.
  rewrite <- Contains_spec. destruct (Contains s sub); split; congruence.
Qed.

(** ** Diagnostics *)

Lemma HasError_app (a b : diag.Diagnostics) :
  diag.HasError (a ++ b) = diag.HasError a || diag.HasError b.
Proof. unfold diag.HasError. apply existsb_app. Qed.

Lemma HasError_Append (diags new : diag.Diagnostics) :
  diag.HasError (diag.Append diags new) = diag.HasError diags || diag.HasError new.
Proof.
  revert diags. induction new as [|d new IH]; intros diags; simpl.
  - rewrite orb_false_r. reflexivity.
  - unfold diag.ContainsDiag. case_bool_decide as Hin.
    + rewrite IH. destruct (diag.isError d) eqn:E; simpl; [|reflexivity].
      assert (diag.HasError diags = true) as ->; [|reflexivity].
      unfold diag.HasError. apply existsb_exists. exists d. split; [|exact E].
      apply list_elem_of_In. exact Hin.
    + rewrite IH, HasError_app. simpl. rewrite orb_false_r, orb_assoc. reflexivity.
Qed.

Lemma AddError_elem (diags : diag.Diagnostics) (summary detail : string) :
  diag.NewErrorDiagnostic summary detail ∈ diag.AddError diags summary detail.
Proof.
  unfold diag.AddError. cbn [diag.Append]. unfold diag.ContainsDiag.
  case_bool_decide as Hin.
  - exact Hin.
  - apply elem_of_app. right. apply list_elem_of_singleton. reflexivity.
Qed.

Lemma AddError_fresh (diags : diag.Diagnostics) (summary detail : string) :
  diag.NewErrorDiagnostic summary detail ∉ diags ->
  diag.AddError diags summary detail =
    diags ++ [diag.NewErrorDiagnostic summary detail].
Proof.
  intros Hfresh. unfold diag.AddError. cbn [diag.Append].
  unfold diag.ContainsDiag. case_bool_decide as Hin; [contradiction | reflexivity].
Qed.

Lemma HasError_AddError (diags : diag.Diagnostics) (summary detail : string) :
  diag.HasError (diag.AddError diags summary detail) = true.
Proof.
  unfold diag.AddError. rewrite HasError_Append. simpl. apply orb_true_r.
Qed.

(** ** The backend seen through [answers] and [recording] *)

Section Backend.

Context {W T : Type}.
Implicit Types (c : ipamclient.Client W T) (w : W) (log : list Call).
Implicit Types (space id block : string) (blocks : list string).

(** The recording client answers as the client it wraps, and logs one
    call per block, in order. *)
Lemma answers_recording c space id blocks w log ans w1 :
  answers c space id blocks w = (ans, w1) ->
  answers (recording c) space id blocks (w, log) =
    (ans, (w1, log ++ callsFor space id blocks)).
Proof.
  revert w log ans. induction blocks as [|block blocks IH]; intros w log ans; simpl.
  - intros [= <- <-]. rewrite app_nil_r. reflexivity.
  - destruct (ipamclient.GetReservation c space block id w) as [a w'].
    destruct (answers c space id blocks w') as [ans' w''] eqn:E.
    intros [= <- <-]. rewrite (IH _ (log ++ [mkCall space block id]) _ E).
    rewrite <- app_assoc. reflexivity.
Qed.

Lemma GetReservation_recording c space block id w log a w' :
  ipamclient.GetReservation c space block id w = (a, w') ->
  ipamclient.GetReservation (recording c) space block id (w, log) =
    (a, (w', log ++ [mkCall space block id])).
Proof. intros H. simpl. rewrite H. reflexivity. Qed.

Lemma callsFor_app space id blocks1 blocks2 :
  callsFor space id (blocks1 ++ blocks2) =
    callsFor space id blocks1 ++ callsFor space id blocks2.
Proof. unfold callsFor. apply fmap_app. Qed.

Lemma callsFor_length space id blocks :
  length (callsFor space id blocks) = length blocks.
Proof. unfold callsFor. apply length_fmap. Qed.

Lemma lastErrAfter_cons (a : ipamclient.Answer T) ans lastErr e :
  snd a = Some e ->
  lastErrAfter (a :: ans) lastErr = lastErrAfter ans (Some e).
Proof.
  intros Ha. unfold lastErrAfter. destruct ans as [|a' ans]; simpl; [exact Ha|].
  destruct (last (a' :: ans)) eqn:El; [reflexivity|].
  apply last_None in El. discriminate El.
Qed.

(** Blocks that answer "not found" are stepped over: the loop goes on
    with the blocks after them, in the world they leave, [lastErr]
    holding the last of their errors. *)
Lemma lookup_skip c space id blocks rest lastErr w ans w1 :
  answers c space id blocks w = (ans, w1) ->
  forallb notFound ans = true ->
  lookup (Some c) space id (blocks ++ rest) lastErr w =
    lookup (Some c) space id rest (lastErrAfter ans lastErr) w1.
Proof.
  revert lastErr w ans.
  induction blocks as [|block blocks IH]; intros lastErr w ans; simpl.
  - intros [= <- <-] _. reflexivity.
  - destruct (ipamclient.GetReservation c space block id w) as [[r err] w'].
    destruct (answers c space id blocks w') as [ans' w''] eqn:E.
    intros [= <- <-]. simpl. unfold notFound at 1. simpl.
    destruct err as [e|]; [|discriminate].
    intros [Hmiss Hrest]%andb_true_iff. rewrite Hmiss.
    rewrite (IH (Some e) _ _ E Hrest).
    rewrite (lastErrAfter_cons (r, Some e) ans' lastErr e eq_refl). reflexivity.
Qed.

(** One round of the loop, by what the backend answers. *)
Lemma lookup_found c space id block rest lastErr w r w' :
  ipamclient.GetReservation c space block id w = ((r, None), w') ->
  lookup (Some c) space id (block :: rest) lastErr w = Some (Fell r lastErr, w').
Proof. intros H. simpl. rewrite H. reflexivity. Qed.

Lemma lookup_miss c space id block rest lastErr w r e w' :
  ipamclient.GetReservation c space block id w = ((r, Some e), w') ->
  Contains (builtin.Error e) "Reservation not found" = true ->
  lookup (Some c) space id (block :: rest) lastErr w =
    lookup (Some c) space id rest (Some e) w'.
Proof. intros H Hc. simpl. rewrite H, Hc. reflexivity. Qed.

Lemma lookup_fatal c space id block rest lastErr w r e w' :
  ipamclient.GetReservation c space block id w = ((r, Some e), w') ->
  Contains (builtin.Error e) "Reservation not found" = false ->
  lookup (Some c) space id (block :: rest) lastErr w =
    Some (Returned block e, w').
Proof. intros H Hc. simpl. rewrite H, Hc. reflexivity. Qed.

End Backend.

(** ** [Read] *)

Section ReadEquations.

Context {W T : Type}.
Variable parseTimestamp : T -> timetypes.RFC3339.
Variable conversionReport : types.List -> option string * string.

Implicit Types (d : reservationDataSource W T) (w : W).
Implicit Types (req : datasource.ReadRequest reservationDataSourceModel).
Implicit Types (resp : datasource.ReadResponse reservationDataSourceModel).
Implicit Types (state : reservationDataSourceModel).
Implicit Types (getDiags elemDiags : diag.Diagnostics).
Implicit Types (blocks pre post : list string) (block : string).

(** What [Read] returns once the loop has been left, by the way it was
    left. *)
Lemma Read_after_loop d req resp w state getDiags blocks elemDiags exit w' :
  tfsdk.Get zeroModel (datasource.Config req) = (state, getDiags) ->
  types.ElementsAs conversionReport (Blocks state) = Some (blocks, elemDiags) ->
  diag.HasError elemDiags = false ->
  blocks <> [] ->
  lookup (client d) (types.ValueString (Space state))
    (types.ValueString (Id state)) blocks None w = Some (exit, w') ->
  Read parseTimestamp conversionReport d req resp w =
    Some (match exit with
          | Returned block err =>
              datasource.mkReadResponse (datasource.State resp)
                (diag.AddError (diag.Append (datasource.Diagnostics resp) getDiags)
                   "Unable to Read AzureIpam Reservation"
                   (readErrorDetail (types.ValueString (Space state)) block
                      (builtin.Error err)))
          | Fell None _ =>
              datasource.mkReadResponse (datasource.State resp)
                (diag.AddError (diag.Append (datasource.Diagnostics resp) getDiags)
                   "Reservation Not Found"
                   (notFoundDetail (types.ValueString (Id state))))
          | Fell (Some reservation) _ =>
              datasource.mkReadResponse
                (Some (mapResponse parseTimestamp state reservation))
                (diag.Append (datasource.Diagnostics resp) getDiags)
          end, w').
Proof.
  intros HGet HElems HnoErr Hne Hloop. unfold Read.
  rewrite HGet, HElems. cbn [mbind option_bind].
    rewrite HnoErr.
  destruct blocks as [|block blocks]; [contradiction|].
  cbn [length Nat.eqb]. rewrite Hloop. simpl.
  destruct exit as [b err | [reservation|] lastErr]; reflexivity.
Qed.

(** With no block to visit [Read] stops before the loop. *)
Lemma Read_no_blocks d req resp w state getDiags elemDiags :
  tfsdk.Get zeroModel (datasource.Config req) = (state, getDiags) ->
  types.ElementsAs conversionReport (Blocks state) = Some ([], elemDiags) ->
  diag.HasError elemDiags = false ->
  Read parseTimestamp conversionReport d req resp w =
    Some (datasource.mkReadResponse (datasource.State resp)
            (diag.AddError (diag.Append (datasource.Diagnostics resp) getDiags)
               "Invalid Configuration"
               "At least one block must be specified in 'blocks'."), w).
Proof.
  intros HGet HElems HnoErr. unfold Read.
  rewrite HGet, HElems. cbn [mbind option_bind].
    rewrite HnoErr. reflexivity.
Qed.

End ReadEquations.

Section ReadProperties.

Context {W T : Type}.
Variable parseTimestamp : T -> timetypes.RFC3339.
Variable conversionReport : types.List -> option string * string.

Implicit Types (d : reservationDataSource W T) (w : W).
Implicit Types (req : datasource.ReadRequest reservationDataSourceModel).
Implicit Types (resp : datasource.ReadResponse reservationDataSourceModel).
Implicit Types (state : reservationDataSourceModel).
Implicit Types (getDiags elemDiags : diag.Diagnostics).
Implicit Types (blocks pre post : list string) (block : string).

(** C1: when the blocks before the first matching one all answer "not
    found" and that block answers with a reservation, [Read] calls the
    backend once for each of these blocks, in the order of the list, and
    for no block after them: with the match at position [k], counted
    from one, that is [k] calls.  The response holds the reservation of
    the matching block, projected into the state, and no diagnostic of
    [Read]. *)
Theorem Read_first_match_wins (c : ipamclient.Client W T) req resp state
    getDiags elemDiags pre block post w (log : list Call)
    (ans : list (ipamclient.Answer T)) (w1 w2 : W)
    (reservation : ipamclient.Reservation T) :
  tfsdk.Get zeroModel (datasource.Config req) = (state, getDiags) ->
  types.ElementsAs conversionReport (Blocks state) = Some (pre ++ block :: post, elemDiags) ->
  diag.HasError elemDiags = false ->
  answers c (types.ValueString (Space state)) (types.ValueString (Id state))
    pre w = (ans, w1) ->
  forallb notFound ans = true ->
  ipamclient.GetReservation c (types.ValueString (Space state)) block
    (types.ValueString (Id state)) w1 = ((Some reservation, None), w2) ->
  Read parseTimestamp conversionReport (mkDataSource (Some (recording c))) req resp (w, log) =
    Some (datasource.mkReadResponse
            (Some (mapResponse parseTimestamp state reservation))
            (diag.Append (datasource.Diagnostics resp) getDiags),
          (w2, log ++ callsFor (types.ValueString (Space state))
                        (types.ValueString (Id state)) (pre ++ [block])))
  /\ length (callsFor (types.ValueString (Space state))
               (types.ValueString (Id state)) (pre ++ [block]))
     = S (length pre).
Proof.
  intros HGet HElems HnoErr Hans Hmiss Hhit. split.
  - rewrite (Read_after_loop parseTimestamp conversionReport _ _ _ _ _ _ _ _
               (Fell (Some reservation) (lastErrAfter ans None))
               (w2, log ++ callsFor (types.ValueString (Space state))
                              (types.ValueString (Id state)) (pre ++ [block]))
               HGet HElems HnoErr).
    + reflexivity.
    + destruct pre; discriminate.
    + cbn [client].
      rewrite (lookup_skip _ _ _ _ _ _ _ _ _
                 (answers_recording c _ _ _ _ log _ _ Hans) Hmiss).
      rewrite (lookup_found _ _ _ _ _ _ _ _ _
                 (GetReservation_recording c _ _ _ _ _ _ _ Hhit)).
      rewrite callsFor_app, app_assoc. reflexivity.
  - rewrite callsFor_length, length_app. simpl. lia.
Qed.

(** The diagnostic for a fatal backend error names the space, the block
    and the message of the error. *)
Lemma readErrorDetail_mentions (space block message : string) :
  occursIn space (readErrorDetail space block message) /\
  occursIn block (readErrorDetail space block message) /\
  occursIn message (readErrorDetail space block message).
Proof.
  unfold readErrorDetail. repeat split.
  - apply occursIn_middle.
  - rewrite <- (append_assoc space), <- (append_assoc "space=").
    apply occursIn_middle.
  - rewrite <- (append_assoc block), <- (append_assoc " block="),
      <- (append_assoc space), <- (append_assoc "space=").
    apply occursIn_end.
Qed.

(** C2: when the blocks tried before block [j] all answer "not found"
    and block [j] answers with an error whose message does not contain
    "Reservation not found", [Read] leaves the state alone and adds the
    error diagnostic "Unable to Read AzureIpam Reservation", whose
    detail names the space, the block and the message; the backend has
    been called for the blocks up to [j] and for no block after it. *)
Theorem Read_fails_fast (c : ipamclient.Client W T) req resp state
    getDiags elemDiags pre block post w (log : list Call)
    (ans : list (ipamclient.Answer T)) (w1 w2 : W)
    (r : option (ipamclient.Reservation T)) (e : builtin.error) :
  tfsdk.Get zeroModel (datasource.Config req) = (state, getDiags) ->
  types.ElementsAs conversionReport (Blocks state) = Some (pre ++ block :: post, elemDiags) ->
  diag.HasError elemDiags = false ->
  answers c (types.ValueString (Space state)) (types.ValueString (Id state))
    pre w = (ans, w1) ->
  forallb notFound ans = true ->
  ipamclient.GetReservation c (types.ValueString (Space state)) block
    (types.ValueString (Id state)) w1 = ((r, Some e), w2) ->
  Contains (builtin.Error e) "Reservation not found" = false ->
  Read parseTimestamp conversionReport (mkDataSource (Some (recording c))) req resp (w, log) =
    Some (datasource.mkReadResponse (datasource.State resp)
            (diag.AddError (diag.Append (datasource.Diagnostics resp) getDiags)
               "Unable to Read AzureIpam Reservation"
               (readErrorDetail (types.ValueString (Space state)) block
                  (builtin.Error e))),
          (w2, log ++ callsFor (types.ValueString (Space state))
                        (types.ValueString (Id state)) (pre ++ [block])))
  /\ diag.NewErrorDiagnostic "Unable to Read AzureIpam Reservation"
       (readErrorDetail (types.ValueString (Space state)) block (builtin.Error e))
     ∈ diag.AddError (diag.Append (datasource.Diagnostics resp) getDiags)
         "Unable to Read AzureIpam Reservation"
         (readErrorDetail (types.ValueString (Space state)) block
            (builtin.Error e))
  /\ occursIn (types.ValueString (Space state))
       (readErrorDetail (types.ValueString (Space state)) block (builtin.Error e))
  /\ occursIn block
       (readErrorDetail (types.ValueString (Space state)) block (builtin.Error e))
  /\ occursIn (builtin.Error e)
       (readErrorDetail (types.ValueString (Space state)) block (builtin.Error e)).
Proof.
  intros HGet HElems HnoErr Hans Hmiss Herr Hfatal.
  split; [|split; [apply AddError_elem | apply readErrorDetail_mentions]].
  rewrite (Read_after_loop parseTimestamp conversionReport _ _ _ _ _ _ _ _
             (Returned block e)
             (w2, log ++ callsFor (types.ValueString (Space state))
                            (types.ValueString (Id state)) (pre ++ [block]))
             HGet HElems HnoErr).
  - reflexivity.
  - destruct pre; discriminate.
  - cbn [client].
    rewrite (lookup_skip _ _ _ _ _ _ _ _ _
               (answers_recording c _ _ _ _ log _ _ Hans) Hmiss).
    rewrite (lookup_fatal _ _ _ _ _ _ _ _ _ _
               (GetReservation_recording c _ _ _ _ _ _ _ Herr) Hfatal).
    rewrite callsFor_app, app_assoc. reflexivity.
Qed.

(** C3: with an empty list of blocks [Read] adds the error diagnostic
    "Invalid Configuration" ("At least one block must be specified in
    'blocks'.") and returns with the state and the world as they were,
    whatever the client, even a nil one; a recording client has logged
    no call. *)
Theorem Read_rejects_empty_blocks d (c : ipamclient.Client W T) req resp
    state getDiags elemDiags w (log : list Call) :
  tfsdk.Get zeroModel (datasource.Config req) = (state, getDiags) ->
  types.ElementsAs conversionReport (Blocks state) = Some ([], elemDiags) ->
  diag.HasError elemDiags = false ->
  Read parseTimestamp conversionReport d req resp w =
    Some (datasource.mkReadResponse (datasource.State resp)
            (diag.AddError (diag.Append (datasource.Diagnostics resp) getDiags)
               "Invalid Configuration"
               "At least one block must be specified in 'blocks'."), w)
  /\ Read parseTimestamp conversionReport (mkDataSource (Some (recording c))) req resp (w, log) =
    Some (datasource.mkReadResponse (datasource.State resp)
            (diag.AddError (diag.Append (datasource.Diagnostics resp) getDiags)
               "Invalid Configuration"
               "At least one block must be specified in 'blocks'."), (w, log)).
Proof.
  intros HGet HElems HnoErr.
  split; apply (Read_no_blocks parseTimestamp conversionReport _ _ _ _ _ _ _ HGet HElems HnoErr).
Qed.

(** C4: when the list of blocks is not empty and every block answers
    "not found", [Read] leaves the state alone and adds the one error
    diagnostic "Reservation Not Found", whose detail is made of the
    reservation id alone (it contains the id and is the same whatever
    the blocks were); the backend has been called once per block, in the
    order of the list. *)
Theorem Read_not_found_in_any_block (c : ipamclient.Client W T) req resp
    state getDiags elemDiags blocks w (log : list Call)
    (ans : list (ipamclient.Answer T)) (w1 : W) :
  tfsdk.Get zeroModel (datasource.Config req) = (state, getDiags) ->
  types.ElementsAs conversionReport (Blocks state) = Some (blocks, elemDiags) ->
  diag.HasError elemDiags = false ->
  blocks <> [] ->
  answers c (types.ValueString (Space state)) (types.ValueString (Id state))
    blocks w = (ans, w1) ->
  forallb notFound ans = true ->
  Read parseTimestamp conversionReport (mkDataSource (Some (recording c))) req resp (w, log) =
    Some (datasource.mkReadResponse (datasource.State resp)
            (diag.AddError (diag.Append (datasource.Diagnostics resp) getDiags)
               "Reservation Not Found"
               (notFoundDetail (types.ValueString (Id state)))),
          (w1, log ++ callsFor (types.ValueString (Space state))
                        (types.ValueString (Id state)) blocks))
  /\ length (callsFor (types.ValueString (Space state))
               (types.ValueString (Id state)) blocks) = length blocks
  /\ occursIn (types.ValueString (Id state))
       (notFoundDetail (types.ValueString (Id state))).
Proof.
  intros HGet HElems HnoErr Hne Hans Hmiss.
  split; [|split; [apply callsFor_length | apply occursIn_middle]].
  rewrite (Read_after_loop parseTimestamp conversionReport _ _ _ _ _ _ _ _
             (Fell None (lastErrAfter ans None))
             (w1, log ++ callsFor (types.ValueString (Space state))
                            (types.ValueString (Id state)) blocks)
             HGet HElems HnoErr Hne).
  - reflexivity.
  - cbn [client]. rewrite <- (app_nil_r blocks) at 1.
    rewrite (lookup_skip _ _ _ _ _ _ _ _ _
               (answers_recording c _ _ _ _ log _ _ Hans) Hmiss).
    reflexivity.
Qed.

(** C5: what the loop does with an error of the backend is decided by
    the text of the error alone, whatever its dynamic type.  If the
    message contains "Reservation not found" the loop goes on with the
    next block, the error kept in [lastErr]; if it does not, [Read]
    returns at once with that block and error, and no further block is
    visited. *)
Theorem lookup_continues_iff_message_says_not_found
    (c : ipamclient.Client W T) (space id : string) block (rest : list string)
    (lastErr : option builtin.error) w (r : option (ipamclient.Reservation T))
    (e : builtin.error) (w' : W) :
  ipamclient.GetReservation c space block id w = ((r, Some e), w') ->
  (occursIn "Reservation not found" (builtin.Error e) ->
   lookup (Some c) space id (block :: rest) lastErr w =
     lookup (Some c) space id rest (Some e) w')
  /\ (~ occursIn "Reservation not found" (builtin.Error e) ->
      lookup (Some c) space id (block :: rest) lastErr w =
        Some (Returned block e, w')).
Proof.
  intros Herr. split; intros Hmsg.
  - apply Contains_spec in Hmsg. exact (lookup_miss _ _ _ _ _ _ _ _ _ _ Herr Hmsg).
  - apply Contains_false in Hmsg. exact (lookup_fatal _ _ _ _ _ _ _ _ _ _ Herr Hmsg).
Qed.

(** C7, as the code has it: when every block of a list that is not
    empty answers "not found", the loop is left with no reservation and
    with its local [lastErr] holding the error of the last block of the
    list, whatever [lastErr] held before and whatever the blocks before
    the last answered; [Read] then drops [lastErr]: what it returns is
    the diagnostic "Reservation Not Found", made of the id alone, in
    which no error of a block appears. *)
Theorem Read_not_found_drops_lastErr (c : ipamclient.Client W T) req resp
    state getDiags elemDiags pre block (lastErr : option builtin.error) w
    (ans : list (ipamclient.Answer T)) (w1 w2 : W)
    (r : option (ipamclient.Reservation T)) (e : builtin.error) :
  tfsdk.Get zeroModel (datasource.Config req) = (state, getDiags) ->
  types.ElementsAs conversionReport (Blocks state)
    = Some (pre ++ [block], elemDiags) ->
  diag.HasError elemDiags = false ->
  answers c (types.ValueString (Space state)) (types.ValueString (Id state))
    pre w = (ans, w1) ->
  forallb notFound ans = true ->
  ipamclient.GetReservation c (types.ValueString (Space state)) block
    (types.ValueString (Id state)) w1 = ((r, Some e), w2) ->
  Contains (builtin.Error e) "Reservation not found" = true ->
  lookup (Some c) (types.ValueString (Space state))
    (types.ValueString (Id state)) (pre ++ [block]) lastErr w
    = Some (Fell None (Some e), w2)
  /\ Read parseTimestamp conversionReport (mkDataSource (Some c)) req resp w =
    Some (datasource.mkReadResponse (datasource.State resp)
            (diag.AddError (diag.Append (datasource.Diagnostics resp) getDiags)
               "Reservation Not Found"
               (notFoundDetail (types.ValueString (Id state)))), w2).
Proof.
  intros HGet HElems HnoErr Hans Hmiss Herr Hlast.
  assert (forall le,
            lookup (Some c) (types.ValueString (Space state))
              (types.ValueString (Id state)) (pre ++ [block]) le w
              = Some (Fell None (Some e), w2)) as Hloop.
  { intros le. rewrite (lookup_skip _ _ _ _ _ _ _ _ _ Hans Hmiss).
    rewrite (lookup_miss _ _ _ _ _ _ _ _ _ _ Herr Hlast). reflexivity. }
  split; [apply Hloop|].
  rewrite (Read_after_loop parseTimestamp conversionReport
             (mkDataSource (Some c)) _ _ _ _ _ _ _
             (Fell None (Some e)) w2 HGet HElems HnoErr).
  - reflexivity.
  - destruct pre; discriminate.
  - apply Hloop.
Qed.

(** C8: [Read] writes the state on one path only, the one on which the
    loop has found a reservation.  After a conversion error, with no
    block to visit, after a fatal backend error and when no block has
    the reservation, the state of the response is the one passed in.
    So a state that has changed means a reservation was found, and then
    [Read] has added no diagnostic; and a response that has gained an
    error carries the state it had. *)
Theorem Read_sets_state_only_when_found d req resp w state getDiags blocks
    elemDiags (resp' : datasource.ReadResponse reservationDataSourceModel)
    (w' : W) :
  tfsdk.Get zeroModel (datasource.Config req) = (state, getDiags) ->
  types.ElementsAs conversionReport (Blocks state) = Some (blocks, elemDiags) ->
  Read parseTimestamp conversionReport d req resp w = Some (resp', w') ->
  (diag.HasError elemDiags = true ->
   datasource.State resp' = datasource.State resp)
  /\ (blocks = [] -> datasource.State resp' = datasource.State resp)
  /\ (forall b err w'',
        diag.HasError elemDiags = false ->
        lookup (client d) (types.ValueString (Space state))
          (types.ValueString (Id state)) blocks None w
          = Some (Returned b err, w'') ->
        datasource.State resp' = datasource.State resp)
  /\ (forall lastErr w'',
        diag.HasError elemDiags = false ->
        blocks <> [] ->
        lookup (client d) (types.ValueString (Space state))
          (types.ValueString (Id state)) blocks None w
          = Some (Fell None lastErr, w'') ->
        datasource.State resp' = datasource.State resp)
  /\ (datasource.State resp' <> datasource.State resp ->
      exists reservation lastErr,
        lookup (client d) (types.ValueString (Space state))
          (types.ValueString (Id state)) blocks None w
          = Some (Fell (Some reservation) lastErr, w')
        /\ datasource.State resp' =
             Some (mapResponse parseTimestamp state reservation)
        /\ datasource.Diagnostics resp' = datasource.Diagnostics resp)
  /\ (diag.HasError (datasource.Diagnostics resp) = false ->
      diag.HasError (datasource.Diagnostics resp') = true ->
      datasource.State resp' = datasource.State resp).
Proof.
  intros HGet HElems HRead.
  assert (datasource.State resp' = datasource.State resp
          \/ exists reservation lastErr,
               diag.HasError elemDiags = false /\ blocks <> [] /\
               lookup (client d) (types.ValueString (Space state))
                 (types.ValueString (Id state)) blocks None w
                 = Some (Fell (Some reservation) lastErr, w')
               /\ datasource.State resp' =
                    Some (mapResponse parseTimestamp state reservation)
               /\ datasource.Diagnostics resp' = datasource.Diagnostics resp)
    as Hcases.
  { destruct (diag.HasError elemDiags) eqn:HnoErr.
    { left. unfold Read in HRead. rewrite HGet, HElems in HRead. cbn [mbind option_bind] in HRead.
    rewrite HnoErr in HRead.
      injection HRead as <- <-. reflexivity. }
    destruct blocks as [|block blocks].
    { left. rewrite (Read_no_blocks parseTimestamp conversionReport _ _ _ _ _ _ _
                       HGet HElems HnoErr) in HRead.
      injection HRead as <- <-. reflexivity. }
    destruct (lookup (client d) (types.ValueString (Space state))
                (types.ValueString (Id state)) (block :: blocks) None w)
      as [[exit w'']|] eqn:Hloop.
    2:{ unfold Read in HRead. rewrite HGet, HElems in HRead. cbn [mbind option_bind] in HRead.
    rewrite HnoErr in HRead.
        cbn [length Nat.eqb] in HRead. rewrite Hloop in HRead.
        discriminate HRead. }
    rewrite (Read_after_loop parseTimestamp conversionReport _ _ _ _ _ _ _ _ exit w''
               HGet HElems HnoErr ltac:(discriminate) Hloop) in HRead.
    injection HRead as <- <-.
    destruct exit as [b err | [reservation|] lastErr]; [left; reflexivity | | left; reflexivity].
    right. exists reservation, lastErr.
    split; [reflexivity|]. split; [discriminate|]. split; [reflexivity|].
    split; [reflexivity|]. cbn [datasource.Diagnostics].
    destruct (datasource.Config req) as [model | diags]; simpl in HGet.
    - injection HGet as <- <-. reflexivity.
    - injection HGet as <- <-. simpl in HElems. discriminate HElems. }
  repeat split.
  - intros Herr. destruct Hcases as [H | (r & le & HnoErr & _)]; [exact H|congruence].
  - intros ->. destruct Hcases as [H | (r & le & _ & Hne & _)]; [exact H|contradiction].
  - intros b err w'' _ Hloop.
    destruct Hcases as [H | (r & le & _ & _ & Hfound & _)]; [exact H|congruence].
  - intros le' w'' _ _ Hloop.
    destruct Hcases as [H | (r & le & _ & _ & Hfound & _)]; [exact H|congruence].
  - intros Hchanged.
    destruct Hcases as [H | (r & le & _ & _ & Hfound & Hst & Hdiags)]; [contradiction|].
    exists r, le. auto.
  - intros Hbefore Hafter.
    destruct Hcases as [H | (r & le & _ & _ & _ & _ & Hdiags)]; [exact H|].
    rewrite Hdiags in Hafter. congruence.
Qed.

(** C9: on the path where a reservation has been found, the model that
    [Read] writes to the state has the [space] and [blocks] of the
    configuration; its other nine fields are those of the flattened
    reservation and the tags of the reservation, and owe nothing to the
    configuration. *)
Theorem Read_found_keeps_space_and_blocks d req resp w state getDiags blocks
    elemDiags (reservation : ipamclient.Reservation T)
    (lastErr : option builtin.error) (w' : W) :
  tfsdk.Get zeroModel (datasource.Config req) = (state, getDiags) ->
  types.ElementsAs conversionReport (Blocks state) = Some (blocks, elemDiags) ->
  diag.HasError elemDiags = false ->
  blocks <> [] ->
  lookup (client d) (types.ValueString (Space state))
    (types.ValueString (Id state)) blocks None w
    = Some (Fell (Some reservation) lastErr, w') ->
  exists written : reservationDataSourceModel,
    Read parseTimestamp conversionReport d req resp w =
      Some (datasource.mkReadResponse (Some written)
              (diag.Append (datasource.Diagnostics resp) getDiags), w')
    /\ Space written = Space state
    /\ Blocks written = Blocks state
    /\ written =
         mkModel (Space state) (Blocks state)
           (resource.Id (resource.flattenReservation parseTimestamp reservation resource.zero))
           (resource.Cidr (resource.flattenReservation parseTimestamp reservation resource.zero))
           (resource.Description (resource.flattenReservation parseTimestamp reservation resource.zero))
           (resource.CreatedOn (resource.flattenReservation parseTimestamp reservation resource.zero))
           (resource.CreatedBy (resource.flattenReservation parseTimestamp reservation resource.zero))
           (resource.SettledOn (resource.flattenReservation parseTimestamp reservation resource.zero))
           (resource.SettledBy (resource.flattenReservation parseTimestamp reservation resource.zero))
           (resource.Status (resource.flattenReservation parseTimestamp reservation resource.zero))
           (fst (types.MapValueFrom (ipamclient.Tags reservation))).
Proof.
  intros HGet HElems HnoErr Hne Hloop.
  exists (mapResponse parseTimestamp state reservation).
  rewrite (Read_after_loop parseTimestamp conversionReport _ _ _ _ _ _ _ _ _ _
             HGet HElems HnoErr Hne Hloop).
  repeat split.
Qed.

End ReadProperties.

(** ** The projection of a reservation *)

Section Projection.

Context {T : Type}.
Variable parseTimestamp : T -> timetypes.RFC3339.

(** C6: the projection of a reservation into the state model passes the
    id, the cidr, the description, the two user fields and the status
    through as known strings, and the tags through as a map that reads
    back as the tags of the reservation; only the two timestamps go
    through [parseTimestamp].  So the reservation with id "r1", cidr
    "10.0.0.0/24", status "wait" and the tag "X-IPAM-RES-ID" = "r1" is
    projected to these very values, whatever its other fields. *)
Theorem mapResponse_passes_fields_through (state : reservationDataSourceModel)
    (reservation : ipamclient.Reservation T)
    (description createdBy settledBy : string) (createdOn settledOn : T) :
  (Id (mapResponse parseTimestamp state reservation)
     = types.StringValue (ipamclient.Id reservation)
   /\ Cidr (mapResponse parseTimestamp state reservation)
     = types.StringValue (ipamclient.Cidr reservation)
   /\ Description (mapResponse parseTimestamp state reservation)
     = types.StringValue (ipamclient.Description reservation)
   /\ CreatedBy (mapResponse parseTimestamp state reservation)
     = types.StringValue (ipamclient.CreatedBy reservation)
   /\ SettledBy (mapResponse parseTimestamp state reservation)
     = types.StringValue (ipamclient.SettledBy reservation)
   /\ Status (mapResponse parseTimestamp state reservation)
     = types.StringValue (ipamclient.Status reservation)
   /\ types.mapAsStrings (Tags (mapResponse parseTimestamp state reservation))
     = ipamclient.Tags reservation
   /\ CreatedOn (mapResponse parseTimestamp state reservation)
     = parseTimestamp (ipamclient.CreatedOn reservation)
   /\ SettledOn (mapResponse parseTimestamp state reservation)
     = parseTimestamp (ipamclient.SettledOn reservation))
  /\ (Id (mapResponse parseTimestamp state
            (ipamclient.mkReservation "r1" "10.0.0.0/24" description createdOn
               createdBy settledOn settledBy "wait"
               (Some {[ "X-IPAM-RES-ID" := "r1" ]})))
        = types.StringValue "r1"
      /\ Cidr (mapResponse parseTimestamp state
            (ipamclient.mkReservation "r1" "10.0.0.0/24" description createdOn
               createdBy settledOn settledBy "wait"
               (Some {[ "X-IPAM-RES-ID" := "r1" ]})))
        = types.StringValue "10.0.0.0/24"
      /\ Status (mapResponse parseTimestamp state
            (ipamclient.mkReservation "r1" "10.0.0.0/24" description createdOn
               createdBy settledOn settledBy "wait"
               (Some {[ "X-IPAM-RES-ID" := "r1" ]})))
        = types.StringValue "wait"
      /\ Tags (mapResponse parseTimestamp state
            (ipamclient.mkReservation "r1" "10.0.0.0/24" description createdOn
               createdBy settledOn settledBy "wait"
               (Some {[ "X-IPAM-RES-ID" := "r1" ]})))
        = types.MapValue {[ "X-IPAM-RES-ID" := types.StringValue "r1" ]}).
Proof.
  split.
  - repeat split.
    unfold mapResponse. cbn [Tags]. destruct (ipamclient.Tags reservation) as [tags|].
    + simpl. f_equal. rewrite <- map_fmap_compose.
      rewrite <- (map_fmap_id tags) at 2. apply map_fmap_ext. reflexivity.
    + reflexivity.
  - repeat split.
Qed.

End Projection.

(** ** [Configure] *)

Section ConfigureProperties.

Context {W T : Type}.

(** C10: [Configure] stores a client exactly when the provider data is a
    pointer to a client.  With nil provider data the data source and the
    response are left as they are, with no diagnostic; with provider
    data of another type the client is left as it is and the response
    gains the error diagnostic "Unexpected Data Source Configure Type",
    which names the type received. *)
Theorem Configure_stores_only_a_client (d : reservationDataSource W T)
    (req : datasource.ConfigureRequest W T) (resp : datasource.ConfigureResponse) :
  match datasource.ProviderData req with
  | datasource.nil => Configure d req resp = (d, resp)
  | datasource.ClientPointer p =>
      client (fst (Configure d req resp)) = p
      /\ snd (Configure d req resp) = resp
  | datasource.Other typeName =>
      fst (Configure d req resp) = d
      /\ datasource.ConfigureDiagnostics (snd (Configure d req resp)) =
           diag.AddError (datasource.ConfigureDiagnostics resp)
             "Unexpected Data Source Configure Type" (configureDetail typeName)
      /\ diag.NewErrorDiagnostic "Unexpected Data Source Configure Type"
           (configureDetail typeName)
         ∈ datasource.ConfigureDiagnostics (snd (Configure d req resp))
      /\ diag.HasError (datasource.ConfigureDiagnostics (snd (Configure d req resp)))
         = true
      /\ occursIn typeName (configureDetail typeName)
  end.
Proof.
  unfold Configure. destruct (datasource.ProviderData req) as [|p|typeName].
  - reflexivity.
  - split; reflexivity.
  - cbn [fst snd datasource.ConfigureDiagnostics]. repeat split.
    + apply AddError_elem.
    + apply HasError_AddError.
    + apply occursIn_middle.
Qed.

End ConfigureProperties.

(** ** The properties on the sample backend *)

(** The scenario of the spec: the reservation is not in ["b1"] and is
    found in ["b2"]; two calls, ["b1"] then ["b2"]. *)
Lemma Read_first_match_wins_witness :
  Read sample.parseTimestamp sample.conversionReport (mkDataSource (Some (recording sample.backend)))
    (sample.request ["b1"; "b2"]) sample.response (0, []) =
    Some (datasource.mkReadResponse
            (Some (mapResponse sample.parseTimestamp (sample.config ["b1"; "b2"])
                     sample.reservation)) [],
          (2, [mkCall "core" "b1" "X"; mkCall "core" "b2" "X"]))
  /\ length (callsFor "core" "X" ["b1"; "b2"]) = 2.
Proof.
  exact (Read_first_match_wins sample.parseTimestamp sample.conversionReport sample.backend
           (sample.request ["b1"; "b2"]) sample.response
           (sample.config ["b1"; "b2"]) [] [] ["b1"] "b2" [] 0 []
           [(None, Some sample.missing)] 1 2 sample.reservation
           eq_refl eq_refl eq_refl eq_refl eq_refl eq_refl).
Defined.

(** Block ["b3"] cannot be reached: ["b2"], after it, is not tried. *)
Lemma Read_fails_fast_witness :
  Read sample.parseTimestamp sample.conversionReport (mkDataSource (Some (recording sample.backend)))
    (sample.request ["b1"; "b3"; "b2"]) sample.response (0, []) =
    Some (datasource.mkReadResponse None
            [diag.NewErrorDiagnostic "Unable to Read AzureIpam Reservation"
               "space=core block=b3 error=dial tcp 10.0.0.1:443: i/o timeout"],
          (2, [mkCall "core" "b1" "X"; mkCall "core" "b3" "X"])).
Proof.
  exact (proj1 (Read_fails_fast sample.parseTimestamp sample.conversionReport sample.backend
                  (sample.request ["b1"; "b3"; "b2"]) sample.response
                  (sample.config ["b1"; "b3"; "b2"]) [] [] ["b1"] "b3" ["b2"]
                  0 [] [(None, Some sample.missing)] 1 2 None sample.unreachable
                  eq_refl eq_refl eq_refl eq_refl eq_refl eq_refl eq_refl)).
Defined.

(** No block at all, and a data source that has no client yet. *)
Lemma Read_rejects_empty_blocks_witness :
  Read sample.parseTimestamp sample.conversionReport (mkDataSource None) (sample.request [])
    sample.response 0 =
    Some (datasource.mkReadResponse None
            [diag.NewErrorDiagnostic "Invalid Configuration"
               "At least one block must be specified in 'blocks'."], 0)
  /\ Read sample.parseTimestamp sample.conversionReport (mkDataSource (Some (recording sample.backend)))
       (sample.request []) sample.response (0, []) =
    Some (datasource.mkReadResponse None
            [diag.NewErrorDiagnostic "Invalid Configuration"
               "At least one block must be specified in 'blocks'."], (0, [])).
Proof.
  exact (Read_rejects_empty_blocks sample.parseTimestamp sample.conversionReport (mkDataSource None)
           sample.backend (sample.request []) sample.response
           (sample.config []) [] [] 0 [] eq_refl eq_refl eq_refl).
Defined.

(** Neither ["b1"] nor ["b4"] has the reservation. *)
Lemma Read_not_found_in_any_block_witness :
  Read sample.parseTimestamp sample.conversionReport (mkDataSource (Some (recording sample.backend)))
    (sample.request ["b1"; "b4"]) sample.response (0, []) =
    Some (datasource.mkReadResponse None
            [diag.NewErrorDiagnostic "Reservation Not Found"
               "Reservation with id 'X' was not found in provided blocks."],
          (2, [mkCall "core" "b1" "X"; mkCall "core" "b4" "X"])).
Proof.
  exact (proj1 (Read_not_found_in_any_block sample.parseTimestamp sample.conversionReport sample.backend
                  (sample.request ["b1"; "b4"]) sample.response
                  (sample.config ["b1"; "b4"]) [] [] ["b1"; "b4"] 0 []
                  [(None, Some sample.missing); (None, Some sample.missing)] 2
                  eq_refl eq_refl eq_refl ltac:(discriminate) eq_refl eq_refl)).
Defined.

(** The error of ["b1"] says "Reservation not found": on to ["b2"]. *)
Lemma lookup_continues_iff_message_says_not_found_witness :
  lookup (Some sample.backend) "core" "X" ["b1"; "b2"] None 0 =
    lookup (Some sample.backend) "core" "X" ["b2"] (Some sample.missing) 1.
Proof.
  apply (proj1 (lookup_continues_iff_message_says_not_found sample.backend
                  "core" "X" "b1" ["b2"] None 0 None sample.missing 1 eq_refl)).
  exists "status: 404, body: ", " in block". reflexivity.
Defined.

(** After ["b1"] and ["b4"], [lastErr] is the error of ["b4"], and the
    response has the diagnostic made of the id. *)
Lemma Read_not_found_drops_lastErr_witness :
  lookup (Some sample.backend) "core" "X" ["b1"; "b4"] None 0
    = Some (Fell None (Some sample.missing), 2)
  /\ Read sample.parseTimestamp sample.conversionReport sample.source
       (sample.request ["b1"; "b4"]) sample.response 0 =
     Some (datasource.mkReadResponse None
             [diag.NewErrorDiagnostic "Reservation Not Found"
                "Reservation with id 'X' was not found in provided blocks."],
           2).
Proof.
  exact (Read_not_found_drops_lastErr sample.parseTimestamp
           sample.conversionReport sample.backend
           (sample.request ["b1"; "b4"]) sample.response
           (sample.config ["b1"; "b4"]) [] [] ["b1"] "b4" None 0
           [(None, Some sample.missing)] 1 2 None sample.missing
           eq_refl eq_refl eq_refl eq_refl eq_refl eq_refl eq_refl).
Defined.

(** What [Read] returns does not carry the last error: two backends
    whose blocks answer "not found" with different errors leave
    different errors in [lastErr], and [Read] returns the same for
    both. *)
Lemma Read_outcome_carries_lastErr_counterexample :
  lookup (Some sample.backend) "core" "X" ["b1"; "b4"] None 0
    = Some (Fell None (Some sample.missing), 2)
  /\ lookup (Some sample2.terse) "core" "X" ["b1"; "b4"] None 0
    = Some (Fell None (Some sample2.gone), 2)
  /\ sample.missing <> sample2.gone
  /\ Read sample.parseTimestamp sample.conversionReport
       (mkDataSource (Some sample.backend)) (sample.request ["b1"; "b4"])
       sample.response 0
     = Read sample.parseTimestamp sample.conversionReport
         (mkDataSource (Some sample2.terse)) (sample.request ["b1"; "b4"])
         sample.response 0
  /\ Read sample.parseTimestamp sample.conversionReport
       (mkDataSource (Some sample2.terse)) (sample.request ["b1"; "b4"])
       sample.response 0
     = Some (datasource.mkReadResponse None
               [diag.NewErrorDiagnostic "Reservation Not Found"
                  "Reservation with id 'X' was not found in provided blocks."],
             2).
Proof.
  repeat split; try reflexivity. intros H. discriminate H.
Qed.

(** The state has been written: the reservation was found in ["b2"]. *)
Lemma Read_sets_state_only_when_found_witness :
  exists reservation lastErr,
    lookup (Some sample.backend) "core" "X" ["b1"; "b2"] None 0
      = Some (Fell (Some reservation) lastErr, 2)
    /\ datasource.State sample.found
       = Some (mapResponse sample.parseTimestamp (sample.config ["b1"; "b2"])
                 reservation)
    /\ datasource.Diagnostics sample.found
       = datasource.Diagnostics sample.response.
Proof.
  apply (Read_sets_state_only_when_found sample.parseTimestamp sample.conversionReport sample.source
           (sample.request ["b1"; "b2"]) sample.response 0
           (sample.config ["b1"; "b2"]) [] ["b1"; "b2"] [] sample.found 2
           eq_refl eq_refl eq_refl).
  discriminate.
Defined.

(** The model written for the reservation found in ["b2"] has the space
    and the blocks of the configuration. *)
Lemma Read_found_keeps_space_and_blocks_witness :
  exists written : reservationDataSourceModel,
    Read sample.parseTimestamp sample.conversionReport sample.source (sample.request ["b1"; "b2"])
      sample.response 0 =
      Some (datasource.mkReadResponse (Some written) [], 2)
    /\ Space written = types.StringValue "core"
    /\ Blocks written = types.ListValue [types.StringValue "b1"; types.StringValue "b2"]
    /\ written = mapResponse sample.parseTimestamp (sample.config ["b1"; "b2"])
                   sample.reservation.
Proof.
  exact (Read_found_keeps_space_and_blocks sample.parseTimestamp sample.conversionReport sample.source
           (sample.request ["b1"; "b2"]) sample.response 0
           (sample.config ["b1"; "b2"]) [] ["b1"; "b2"] [] sample.reservation
           (Some sample.missing) 2
           eq_refl eq_refl eq_refl ltac:(discriminate) eq_refl).
Defined.

(** * Further properties of the loop *)

Section LoopProperties.

Context {W T : Type}.
Implicit Types (c : ipamclient.Client W T) (w : W) (log : list Call).
Implicit Types (space id block : string) (blocks pre post : list string).
Implicit Types (lastErr : option builtin.error).

(** However the loop is left, it has stepped over a run of blocks that
    answered "not found", and then either run out of blocks or met a
    block that answered otherwise. *)
Lemma lookup_inv c space id blocks lastErr w (exit : LoopExit T) (w' : W) :
  lookup (Some c) space id blocks lastErr w = Some (exit, w') ->
  exists pre (ans : list (ipamclient.Answer T)) (w1 : W),
    answers c space id pre w = (ans, w1)
    /\ forallb notFound ans = true
    /\ ((blocks = pre /\ exit = Fell None (lastErrAfter ans lastErr) /\ w' = w1)
        \/ exists block post r err,
             blocks = pre ++ block :: post
             /\ ipamclient.GetReservation c space block id w1 = ((r, err), w')
             /\ match err with
                | None => exit = Fell r (lastErrAfter ans lastErr)
                | Some e =>
                    Contains (builtin.Error e) "Reservation not found" = false
                    /\ exit = Returned block e
                end).
Proof.
  revert lastErr w. induction blocks as [|block rest IH]; intros lastErr w.
  - intros [= <- <-]. exists [], [], w. repeat split. left. repeat split.
  - cbn [lookup mbind option_bind].
    destruct (ipamclient.GetReservation c space block id w) as [[r err] w0] eqn:Hcall.
    destruct err as [e|].
    + destruct (Contains (builtin.Error e) "Reservation not found") eqn:Hmsg.
      * intros Hrest.
        destruct (IH _ _ Hrest) as (pre & ans & w1 & Hans & Hmiss & Hend).
        exists (block :: pre), (((r, Some e) : ipamclient.Answer T) :: ans), w1.
        split; [simpl; rewrite Hcall, Hans; reflexivity|].
        split; [simpl; unfold notFound at 1; simpl; rewrite Hmsg; exact Hmiss|].
        rewrite (lastErrAfter_cons (r, Some e) ans lastErr e eq_refl).
        destruct Hend as [(-> & -> & ->) | (b & post & r' & err' & -> & Hb & Hexit)].
        -- left. repeat split.
        -- right. exists b, post, r', err'. repeat split; assumption.
      * intros [= <- <-]. exists [], [], w. repeat split.
        right. exists block, rest, r, (Some e). repeat split; assumption.
    + intros [= <- <-]. exists [], [], w. repeat split.
      right. exists block, rest, r, None. repeat split; assumption.
Qed.

(** X1: the loop is left with a reservation only if the backend has
    answered with that very reservation and no error for a block of the
    list, all blocks before it having answered "not found". *)
Theorem lookup_found_is_an_answer c space id blocks lastErr w
    (reservation : ipamclient.Reservation T) (lastErr' : option builtin.error)
    (w' : W) :
  lookup (Some c) space id blocks lastErr w
    = Some (Fell (Some reservation) lastErr', w') ->
  exists pre block post (ans : list (ipamclient.Answer T)) (w1 : W),
    blocks = pre ++ block :: post
    /\ answers c space id pre w = (ans, w1)
    /\ forallb notFound ans = true
    /\ ipamclient.GetReservation c space block id w1
       = ((Some reservation, None), w').
Proof.
  intros Hloop.
  destruct (lookup_inv _ _ _ _ _ _ _ _ Hloop)
    as (pre & ans & w1 & Hans & Hmiss & [(_ & Hexit & _) | Hstop]).
  - discriminate Hexit.
  - destruct Hstop as (block & post & r & [e|] & -> & Hcall & Hexit).
    + destruct Hexit as [_ Hexit]. discriminate Hexit.
    + injection Hexit as <- _. exists pre, block, post, ans, w1. auto.
Qed.

(** X2: the loop is left by the early return only for a block of the
    list whose answer was an error without "Reservation not found" in
    its message, all blocks before it having answered "not found". *)
Theorem lookup_returned_is_a_fatal_answer c space id blocks lastErr w block
    (e : builtin.error) (w' : W) :
  lookup (Some c) space id blocks lastErr w = Some (Returned block e, w') ->
  exists pre post (ans : list (ipamclient.Answer T)) (w1 : W)
         (r : option (ipamclient.Reservation T)),
    blocks = pre ++ block :: post
    /\ answers c space id pre w = (ans, w1)
    /\ forallb notFound ans = true
    /\ ipamclient.GetReservation c space block id w1 = ((r, Some e), w')
    /\ ~ occursIn "Reservation not found" (builtin.Error e).
Proof.
  intros Hloop.
  destruct (lookup_inv _ _ _ _ _ _ _ _ Hloop)
    as (pre & ans & w1 & Hans & Hmiss & [(_ & Hexit & _) | Hstop]).
  - discriminate Hexit.
  - destruct Hstop as (b & post & r & [e'|] & -> & Hcall & Hexit).
    + destruct Hexit as [Hmsg [= <- <-]].
      exists pre, post, ans, w1, r. repeat split; try assumption.
      apply Contains_false. exact Hmsg.
    + discriminate Hexit.
Qed.

Lemma forallb_last {A : Type} (P : A -> bool) (l : list A) (a : A) :
  forallb P l = true -> last l = Some a -> P a = true.
Proof.
  intros Hall Hlast. rewrite forallb_forall in Hall. apply Hall.
  apply list_elem_of_In. apply last_Some in Hlast as [l' ->].
  apply elem_of_app. right. apply list_elem_of_singleton. reflexivity.
Qed.

(** X3: [lastErr] never holds anything but a "not found" error: started
    empty, as [Read] starts it, an error found in it when the loop has
    been left has "Reservation not found" in its message. *)
Theorem lookup_lastErr_is_a_not_found_error c space id blocks w
    (r : option (ipamclient.Reservation T)) (e : builtin.error) (w' : W) :
  lookup (Some c) space id blocks None w = Some (Fell r (Some e), w') ->
  occursIn "Reservation not found" (builtin.Error e).
Proof.
  intros Hloop.
  assert (exists ans : list (ipamclient.Answer T),
            forallb notFound ans = true /\ lastErrAfter ans None = Some e)
    as (ans & Hmiss & Hlast).
  { destruct (lookup_inv _ _ _ _ _ _ _ _ Hloop)
      as (pre & ans & w1 & Hans & Hmiss & [(_ & Hexit & _) | Hstop]).
    - injection Hexit as _ Hexit. exists ans. auto.
    - destruct Hstop as (b & post & r' & [e'|] & _ & _ & Hexit).
      + destruct Hexit as [_ Hexit]. discriminate Hexit.
      + injection Hexit as _ Hexit. exists ans. auto. }
  unfold lastErrAfter in Hlast. destruct (last ans) as [a|] eqn:Ha; [|discriminate].
  pose proof (forallb_last _ _ _ Hmiss Ha) as Hnf.
  unfold notFound in Hnf. rewrite Hlast in Hnf. apply Contains_spec. exact Hnf.
Qed.

(** Whatever the backend answers, the calls of one run of the loop are
    the calls for the first [n] blocks of the list, in order, for some
    [n]; with a block to visit there is at least one call. *)
Lemma lookup_calls c space id blocks lastErr w log :
  exists (exit : LoopExit T) (w' : W) (n : nat),
    lookup (Some (recording c)) space id blocks lastErr (w, log)
      = Some (exit, (w', log ++ callsFor space id (take n blocks)))
    /\ n <= length blocks
    /\ (blocks <> [] -> 1 <= n).
Proof.
  revert lastErr w log. induction blocks as [|block rest IH]; intros lastErr w log.
  - exists (Fell None lastErr), w, 0. simpl. rewrite app_nil_r.
    repeat split; [lia | contradiction].
  - destruct (ipamclient.GetReservation c space block id w) as [[r err] w0] eqn:Hcall.
    pose proof (GetReservation_recording c _ _ _ _ log _ _ Hcall) as Hrec.
    assert (forall (exit : LoopExit T) (w1 : W),
              exists n, (exit, (w1, log ++ [mkCall space block id]))
                = (exit, (w1, log ++ callsFor space id (take n (block :: rest))))
                /\ n <= length (block :: rest) /\ (block :: rest <> [] -> 1 <= n))
      as Hone.
    { intros exit w1. exists 1. simpl. destruct rest; simpl; split;
        try reflexivity; split; intros; lia. }
    destruct err as [e|].
    + destruct (Contains (builtin.Error e) "Reservation not found") eqn:Hmsg.
      * destruct (IH (Some e) w0 (log ++ [mkCall space block id]))
          as (exit & w' & n & Hloop & Hn & _).
        exists exit, w', (S n).
        rewrite (lookup_miss _ _ _ _ _ _ _ _ _ _ Hrec Hmsg), Hloop.
        simpl. rewrite <- app_assoc. repeat split; [lia | intros _; lia].
      * rewrite (lookup_fatal _ _ _ _ _ _ _ _ _ _ Hrec Hmsg).
        destruct (Hone (Returned block e) w0) as (n & Heq & Hn).
        exists (Returned block e), w0, n. rewrite Heq. auto.
    + rewrite (lookup_found _ _ _ _ _ _ _ _ _ Hrec).
      destruct (Hone (Fell r lastErr) w0) as (n & Heq & Hn).
      exists (Fell r lastErr), w0, n. rewrite Heq. auto.
Qed.

End LoopProperties.

(** * Further properties of [Read] *)

Lemma Append_extends (diags new : diag.Diagnostics) :
  exists added, diag.Append diags new = diags ++ added.
Proof.
  revert diags. induction new as [|d new IH]; intros diags; simpl.
  - exists []. rewrite app_nil_r. reflexivity.
  - destruct (diag.ContainsDiag diags d).
    + apply IH.
    + destruct (IH (diags ++ [d])) as [added H]. exists (d :: added).
      rewrite H, <- app_assoc. reflexivity.
Qed.

Lemma AddError_extends (diags : diag.Diagnostics) (summary detail : string) :
  exists added, diag.AddError diags summary detail = diags ++ added.
Proof. apply Append_extends. Qed.

Lemma AddError_again (diags : diag.Diagnostics) (summary detail : string) :
  diag.AddError (diag.AddError diags summary detail) summary detail
    = diag.AddError diags summary detail.
Proof.
  pose proof (AddError_elem diags summary detail) as Hin.
  unfold diag.AddError at 1. cbn [diag.Append]. unfold diag.ContainsDiag.
  case_bool_decide; [reflexivity | contradiction].
Qed.

Section MoreReadProperties.

Context {W T : Type}.
Variable parseTimestamp : T -> timetypes.RFC3339.
Variable conversionReport : types.List -> option string * string.

Implicit Types (d : reservationDataSource W T) (w : W).
Implicit Types (req : datasource.ReadRequest reservationDataSourceModel).
Implicit Types (resp : datasource.ReadResponse reservationDataSourceModel).
Implicit Types (state : reservationDataSourceModel).
Implicit Types (getDiags elemDiags : diag.Diagnostics).
Implicit Types (blocks pre post : list string) (block : string).

(** X4: whatever the backend answers, [Read] calls it for the first [n]
    blocks of the list and for no other, once each and in the order of
    the list, always with the space and the id of the configuration;
    when the list has decoded and is not empty, there is at least one
    call. *)
Theorem Read_calls_a_prefix_of_blocks (c : ipamclient.Client W T) req resp
    state getDiags blocks elemDiags w (log : list Call) :
  tfsdk.Get zeroModel (datasource.Config req) = (state, getDiags) ->
  types.ElementsAs conversionReport (Blocks state) = Some (blocks, elemDiags) ->
  exists (resp' : datasource.ReadResponse reservationDataSourceModel)
         (w' : W) (n : nat),
    Read parseTimestamp conversionReport (mkDataSource (Some (recording c))) req resp (w, log)
      = Some (resp',
              (w', log ++ callsFor (types.ValueString (Space state))
                            (types.ValueString (Id state)) (take n blocks)))
    /\ n <= length blocks
    /\ (diag.HasError elemDiags = false -> blocks <> [] -> 1 <= n).
Proof.
  intros HGet HElems. destruct (diag.HasError elemDiags) eqn:HnoErr.
  { eexists _, w, 0. unfold Read. rewrite HGet, HElems. cbn [mbind option_bind].
    rewrite HnoErr.
    rewrite take_0. unfold callsFor. simpl. rewrite app_nil_r.
    repeat split; [lia | discriminate]. }
  destruct blocks as [|block blocks].
  { eexists _, w, 0.
    rewrite (Read_no_blocks parseTimestamp conversionReport _ _ _ _ _ _ _ HGet HElems HnoErr).
    unfold callsFor. simpl. rewrite app_nil_r.
    repeat split; [lia | contradiction]. }
  destruct (lookup_calls c (types.ValueString (Space state))
              (types.ValueString (Id state)) (block :: blocks) None w log)
    as (exit & w' & n & Hloop & Hn & Hpos).
  eexists _, w', n.
  rewrite (Read_after_loop parseTimestamp conversionReport (mkDataSource (Some (recording c)))
             _ _ _ _ _ _ _ _ _ HGet HElems HnoErr ltac:(discriminate) Hloop).
  repeat split; [exact Hn | intros _; exact Hpos].
Qed.

(** X5: when the list of blocks cannot be read into a slice of strings,
    [Read] appends the diagnostics of the conversion and returns: no
    backend call (the world is as it was, whatever the client), no
    state written, and the response has an error. *)
Theorem Read_stops_on_conversion_error d req resp state getDiags blocks
    elemDiags w :
  tfsdk.Get zeroModel (datasource.Config req) = (state, getDiags) ->
  types.ElementsAs conversionReport (Blocks state) = Some (blocks, elemDiags) ->
  diag.HasError elemDiags = true ->
  Read parseTimestamp conversionReport d req resp w =
    Some (datasource.mkReadResponse (datasource.State resp)
            (diag.Append (diag.Append (datasource.Diagnostics resp) getDiags)
               elemDiags), w)
  /\ diag.HasError
       (diag.Append (diag.Append (datasource.Diagnostics resp) getDiags)
          elemDiags) = true.
Proof.
  intros HGet HElems Herr. split.
  - unfold Read. rewrite HGet, HElems. cbn [mbind option_bind].
    rewrite Herr. reflexivity.
  - rewrite HasError_Append, Herr. apply orb_true_r.
Qed.

(** X6: an answer with neither a reservation nor an error ends the
    search as if nothing had been found.  When the blocks before it
    answer "not found", [Read] adds "Reservation Not Found", writes no
    state, and the blocks after it are not called, whatever they
    hold. *)
Theorem Read_takes_empty_answer_as_not_found (c : ipamclient.Client W T)
    req resp state getDiags elemDiags pre block post w (log : list Call)
    (ans : list (ipamclient.Answer T)) (w1 w2 : W) :
  tfsdk.Get zeroModel (datasource.Config req) = (state, getDiags) ->
  types.ElementsAs conversionReport (Blocks state) = Some (pre ++ block :: post, elemDiags) ->
  diag.HasError elemDiags = false ->
  answers c (types.ValueString (Space state)) (types.ValueString (Id state))
    pre w = (ans, w1) ->
  forallb notFound ans = true ->
  ipamclient.GetReservation c (types.ValueString (Space state)) block
    (types.ValueString (Id state)) w1 = ((None, None), w2) ->
  Read parseTimestamp conversionReport (mkDataSource (Some (recording c))) req resp (w, log) =
    Some (datasource.mkReadResponse (datasource.State resp)
            (diag.AddError (diag.Append (datasource.Diagnostics resp) getDiags)
               "Reservation Not Found"
               (notFoundDetail (types.ValueString (Id state)))),
          (w2, log ++ callsFor (types.ValueString (Space state))
                        (types.ValueString (Id state)) (pre ++ [block]))).
Proof.
  intros HGet HElems HnoErr Hans Hmiss Hempty.
  rewrite (Read_after_loop parseTimestamp conversionReport _ _ _ _ _ _ _ _
             (Fell None (lastErrAfter ans None))
             (w2, log ++ callsFor (types.ValueString (Space state))
                            (types.ValueString (Id state)) (pre ++ [block]))
             HGet HElems HnoErr).
  - reflexivity.
  - destruct pre; discriminate.
  - cbn [client].
    rewrite (lookup_skip _ _ _ _ _ _ _ _ _
               (answers_recording c _ _ _ _ log _ _ Hans) Hmiss).
    rewrite (lookup_found _ _ _ _ _ _ _ _ _
               (GetReservation_recording c _ _ _ _ _ _ _ Hempty)).
    rewrite callsFor_app, app_assoc. reflexivity.
Qed.

(** X7: [Read] only ever adds diagnostics: those the response carried
    when it was passed in are still there, first and in their order,
    on every path. *)
Theorem Read_keeps_diagnostics d req resp w
    (resp' : datasource.ReadResponse reservationDataSourceModel) (w' : W) :
  Read parseTimestamp conversionReport d req resp w = Some (resp', w') ->
  exists added : diag.Diagnostics,
    datasource.Diagnostics resp' = datasource.Diagnostics resp ++ added.
Proof.
  intros HRead.
  destruct (tfsdk.Get zeroModel (datasource.Config req)) as [state getDiags] eqn:HGet.
  destruct (types.ElementsAs conversionReport (Blocks state))
    as [[blocks elemDiags]|] eqn:HElems.
  2:{ unfold Read in HRead. rewrite HGet, HElems in HRead. discriminate HRead. }
  destruct (Append_extends (datasource.Diagnostics resp) getDiags) as [added0 H0].
  assert (forall summary detail, exists added,
            diag.AddError (diag.Append (datasource.Diagnostics resp) getDiags)
              summary detail = datasource.Diagnostics resp ++ added) as Hadd.
  { intros summary detail.
    destruct (AddError_extends (diag.Append (datasource.Diagnostics resp) getDiags)
                summary detail) as [added1 H1].
    exists (added0 ++ added1). rewrite H1, H0, app_assoc. reflexivity. }
  destruct (diag.HasError elemDiags) eqn:HnoErr.
  { unfold Read in HRead. rewrite HGet, HElems in HRead. cbn [mbind option_bind] in HRead.
    rewrite HnoErr in HRead.
    injection HRead as <- <-. cbn [datasource.Diagnostics].
    destruct (Append_extends (diag.Append (datasource.Diagnostics resp) getDiags)
                elemDiags) as [added1 H1].
    exists (added0 ++ added1). rewrite H1, H0, app_assoc. reflexivity. }
  destruct blocks as [|block blocks].
  { rewrite (Read_no_blocks parseTimestamp conversionReport _ _ _ _ _ _ _ HGet HElems HnoErr)
      in HRead.
    injection HRead as <- <-. apply Hadd. }
  destruct (lookup (client d) (types.ValueString (Space state))
              (types.ValueString (Id state)) (block :: blocks) None w)
    as [[exit w'']|] eqn:Hloop.
  2:{ unfold Read in HRead. rewrite HGet, HElems in HRead. cbn [mbind option_bind] in HRead.
    rewrite HnoErr in HRead.
      cbn [length Nat.eqb] in HRead. rewrite Hloop in HRead.
      discriminate HRead. }
  rewrite (Read_after_loop parseTimestamp conversionReport _ _ _ _ _ _ _ _ exit w''
             HGet HElems HnoErr ltac:(discriminate) Hloop) in HRead.
  injection HRead as <- <-.
  destruct exit as [b err | [reservation|] lastErr]; cbn [datasource.Diagnostics].
  - apply Hadd.
  - exists added0. exact H0.
  - apply Hadd.
Qed.

End MoreReadProperties.

(** * [Metadata], [Schema] and [Configure] *)

Lemma length_append (s t : string) :
  String.length (s +:+ t) = String.length s + String.length t.
Proof.
  induction s as [|c s IH]; [reflexivity|].
  rewrite append_String. simpl. rewrite IH. reflexivity.
Qed.

Lemma append_cancel_r (s s' t : string) : s +:+ t = s' +:+ t -> s = s'.
Proof.
  revert s'. induction s as [|a s IH]; intros [|b s'] H.
  - reflexivity.
  - apply (f_equal String.length) in H.
    rewrite append_empty, append_String in H. simpl in H.
    rewrite length_append in H. lia.
  - apply (f_equal String.length) in H.
    rewrite append_empty, append_String in H. simpl in H.
    rewrite length_append in H. lia.
  - rewrite !append_String in H. injection H as -> H.
    rewrite (IH _ H). reflexivity.
Qed.

Section Declarations.

Context {W T : Type}.

(** X8: the type name that [Metadata] reports is made of the type name
    of the provider alone: two calls report the same name exactly when
    the provider names are the same, whatever the data source and the
    response passed in. *)
Theorem Metadata_names_the_provider (d d' : reservationDataSource W T)
    (req req' : MetadataRequest) (resp resp' : MetadataResponse) :
  Metadata d req resp = Metadata d' req' resp'
  <-> ProviderTypeName req = ProviderTypeName req'.
Proof.
  unfold Metadata. split.
  - intros [= H]. exact (append_cancel_r _ _ _ H).
  - intros ->. reflexivity.
Qed.

(** X9: the schema that [Schema] declares and the model struct agree:
    the attributes are those named by the [tfsdk] tags of the struct,
    each of the value type of its field; [space], [blocks] and [id] are
    the required ones and every other attribute is computed, none is
    both; the list and the map have string elements. *)
Theorem Schema_agrees_with_the_model (d : reservationDataSource W T)
    (resp : SchemaResponse) :
  schema.valueType <$> schema.Attributes (ResponseSchema (Schema d resp))
    = list_to_map modelFields
  /\ NoDup (fst <$> modelFields)
  /\ map_Forall
       (fun name a =>
          schema.Required a = bool_decide (name ∈ ["space"; "blocks"; "id"])
          /\ schema.Computed a = negb (schema.Required a)
          /\ schema.elementType a =
               match schema.kind a with
               | schema.StringAttribute => None
               | schema.ListAttribute | schema.MapAttribute =>
                   Some schema.StringType
               end)
       (schema.Attributes (ResponseSchema (Schema d resp))).
Proof.
  split; [|split].
  - vm_compute. reflexivity.
  - match goal with |- ?G => apply (@bool_decide_unpack G _) end.
    vm_compute. exact I.
  - match goal with |- ?G => apply (@bool_decide_unpack G _) end.
    vm_compute. exact I.
Qed.

(** X10: [Configure] may be called again with the same request: the
    second call changes neither the client nor the diagnostics, so a
    repeated wrong type is reported once. *)
Theorem Configure_twice (d : reservationDataSource W T)
    (req : datasource.ConfigureRequest W T) (resp : datasource.ConfigureResponse) :
  Configure (fst (Configure d req resp)) req (snd (Configure d req resp))
    = Configure d req resp.
Proof.
  unfold Configure. destruct (datasource.ProviderData req) as [|p|typeName];
    cbn [fst snd datasource.ConfigureDiagnostics]; try reflexivity.
  rewrite AddError_again. reflexivity.
Qed.

End Declarations.

(** * The further properties on the sample backends *)

Lemma lookup_found_is_an_answer_witness :
  exists pre block post (ans : list (ipamclient.Answer string)) (w1 : nat),
    ["b1"; "b2"] = pre ++ block :: post
    /\ answers sample.backend "core" "X" pre 0 = (ans, w1)
    /\ forallb notFound ans = true
    /\ ipamclient.GetReservation sample.backend "core" block "X" w1
       = ((Some sample.reservation, None), 2).
Proof.
  exact (lookup_found_is_an_answer sample.backend "core" "X" ["b1"; "b2"] None 0
           sample.reservation (Some sample.missing) 2 eq_refl).
Defined.

Lemma lookup_returned_is_a_fatal_answer_witness :
  exists pre post (ans : list (ipamclient.Answer string)) (w1 : nat)
         (r : option (ipamclient.Reservation string)),
    ["b1"; "b3"; "b2"] = pre ++ "b3" :: post
    /\ answers sample.backend "core" "X" pre 0 = (ans, w1)
    /\ forallb notFound ans = true
    /\ ipamclient.GetReservation sample.backend "core" "b3" "X" w1
       = ((r, Some sample.unreachable), 2)
    /\ ~ occursIn "Reservation not found" (builtin.Error sample.unreachable).
Proof.
  exact (lookup_returned_is_a_fatal_answer sample.backend "core" "X"
           ["b1"; "b3"; "b2"] None 0 "b3" sample.unreachable 2 eq_refl).
Defined.

Lemma lookup_lastErr_is_a_not_found_error_witness :
  occursIn "Reservation not found" (builtin.Error sample.missing).
Proof.
  exact (lookup_lastErr_is_a_not_found_error sample.backend "core" "X"
           ["b1"; "b4"] 0 None sample.missing 2 eq_refl).
Defined.

Lemma Read_calls_a_prefix_of_blocks_witness :
  exists (resp' : datasource.ReadResponse reservationDataSourceModel)
         (w' : nat) (n : nat),
    Read sample.parseTimestamp sample.conversionReport (mkDataSource (Some (recording sample.backend)))
      (sample.request ["b1"; "b2"; "b3"]) sample.response (0, [])
      = Some (resp', (w', [] ++ callsFor "core" "X" (take n ["b1"; "b2"; "b3"])))
    /\ n <= 3
    /\ (diag.HasError [] = false -> ["b1"; "b2"; "b3"] <> [] -> 1 <= n).
Proof.
  exact (Read_calls_a_prefix_of_blocks sample.parseTimestamp sample.conversionReport sample.backend
           (sample.request ["b1"; "b2"; "b3"]) sample.response
           (sample.config ["b1"; "b2"; "b3"]) [] ["b1"; "b2"; "b3"] [] 0 []
           eq_refl eq_refl).
Defined.

(** A list of blocks that is not known yet cannot be read. *)
Lemma Read_stops_on_conversion_error_witness :
  Read sample.parseTimestamp sample.conversionReport sample.source
    (datasource.mkReadRequest (tfsdk.Decodes sample2.unknownBlocks))
    sample.response 0 =
    Some (datasource.mkReadResponse None
            [types.ValueConversionError
               (sample.conversionReport types.ListUnknown)], 0)
  /\ diag.HasError
       [types.ValueConversionError (sample.conversionReport types.ListUnknown)]
     = true.
Proof.
  exact (Read_stops_on_conversion_error sample.parseTimestamp sample.conversionReport sample.source
           (datasource.mkReadRequest (tfsdk.Decodes sample2.unknownBlocks))
           sample.response sample2.unknownBlocks [] []
           [types.ValueConversionError
              (sample.conversionReport types.ListUnknown)]
           0 eq_refl eq_refl eq_refl).
Defined.

(** Block ["b0"] answers nothing: ["b2"], which has the reservation, is
    not asked. *)
Lemma Read_takes_empty_answer_as_not_found_witness :
  Read sample.parseTimestamp sample.conversionReport (mkDataSource (Some (recording sample2.backend)))
    (sample.request ["b1"; "b0"; "b2"]) sample.response (0, []) =
    Some (datasource.mkReadResponse None
            [diag.NewErrorDiagnostic "Reservation Not Found"
               "Reservation with id 'X' was not found in provided blocks."],
          (2, [mkCall "core" "b1" "X"; mkCall "core" "b0" "X"])).
Proof.
  exact (Read_takes_empty_answer_as_not_found sample.parseTimestamp sample.conversionReport
           sample2.backend (sample.request ["b1"; "b0"; "b2"]) sample.response
           (sample.config ["b1"; "b0"; "b2"]) [] [] ["b1"] "b0" ["b2"] 0 []
           [(None, Some sample.missing)] 1 2
           eq_refl eq_refl eq_refl eq_refl eq_refl eq_refl).
Defined.

(** The warning passed in is still the first diagnostic. *)
Lemma Read_keeps_diagnostics_witness :
  exists added : diag.Diagnostics,
    [diag.mkDiagnostic diag.SeverityWarning "Deprecated" "Use another source."
       None;
     diag.NewErrorDiagnostic "Reservation Not Found"
       "Reservation with id 'X' was not found in provided blocks."]
    = datasource.Diagnostics sample2.warned ++ added.
Proof.
  exact (Read_keeps_diagnostics sample.parseTimestamp sample.conversionReport sample.source
           (sample.request ["b1"; "b4"]) sample2.warned 0
           (datasource.mkReadResponse None
              [diag.mkDiagnostic diag.SeverityWarning "Deprecated"
                 "Use another source." None;
               diag.NewErrorDiagnostic "Reservation Not Found"
                 "Reservation with id 'X' was not found in provided blocks."])
           2 eq_refl).
Defined.
